(** * ConversationV1: the request-building facade of conversation/v1.js

    A shallow embedding of [conversation/v1.js].  JavaScript values are an
    inductive type, objects are insertion-ordered association lists, and the
    collaborators that live outside the file ([object.pick],
    [lib/requestwrapper], [lib/base_service]) are either section variables
    or definitions modelled from the specification. *)

From Stdlib Require Import String Ascii List Bool ZArith DecimalString Lia.
Import ListNotations.
Local Open Scope string_scope.
Local Open Scope list_scope.

Set Implicit Arguments.

(** ** JavaScript values *)

Module Js.

(** Strings are byte strings (UTF-8).  Numbers are the integral ones.
    An object lists the properties that [in] finds on it, in insertion
    order; a function value carries its source text as well. *)
#[warnings="-register-all"]
Inductive value : Type :=
| VUndefined
| VNull
| VBool (b : bool)
| VNum (n : Z)
| VStr (s : string)
| VArr (items : list value)
| VObj (props : list (string * value))
| VFun (text : string) (props : list (string * value)).

Definition obj : Type := list (string * value).

(** [typeof v] *)
Definition typeof (v : value) : string :=
  match v with
  | VUndefined => "undefined"
  | VNull => "object"
  | VBool _ => "boolean"
  | VNum _ => "number"
  | VStr _ => "string"
  | VArr _ => "object"
  | VObj _ => "object"
  | VFun _ _ => "function"
  end.

(** ToBoolean: the falsy values are [undefined], [null], [false], [0] and the empty string. *)
Definition truthy (v : value) : bool :=
  match v with
  | VUndefined | VNull => false
  | VBool b => b
  | VNum n => negb (n =? 0)%Z
  | VStr s => negb (s =? EmptyString)
  | VArr _ | VObj _ | VFun _ _ => true
  end.

(** [a || b] *)
Definition or_else (a b : value) : value := if truthy a then a else b.

Definition is_undefined (v : value) : bool :=
  match v with VUndefined => true | _ => false end.

(** [k in o] *)
Fixpoint has_key (o : obj) (k : string) : bool :=
  match o with
  | [] => false
  | (k', _) :: o' => (k' =? k) || has_key o' k
  end.

(** [o[k]]: [undefined] when the key is absent. *)
Fixpoint get (o : obj) (k : string) : value :=
  match o with
  | [] => VUndefined
  | (k', v) :: o' => if k' =? k then v else get o' k
  end.

(** [o[k] = v]: overwrite in place, or append a new property. *)
Fixpoint set (o : obj) (k : string) (v : value) : obj :=
  match o with
  | [] => [(k, v)]
  | (k', v') :: o' => if k' =? k then (k', v) :: o' else (k', v') :: set o' k v
  end.

(** [Object.keys(o)] *)
Definition keys (o : obj) : list string := map fst o.

(** [Object.assign(target, source)]: for each key of the source,
    [target[key] = source[key]]; the source's entries win. *)
Definition assign (target source : obj) : obj :=
  fold_left (fun acc key => set acc key (get source key)) (keys source) target.

(** The properties of a plain object or of a function; nothing else has
    any that matter here. *)
Definition props_of (v : value) : option obj :=
  match v with
  | VObj o => Some o
  | VFun _ o => Some o
  | _ => None
  end.

End Js.
Import Js.

(** The properties [pick] can read from a value. *)
Definition own (v : value) : obj :=
  match props_of v with Some o => o | None => [] end.

(** ** object.pick *)

(** Modelled from the spec: [object.pick] is an npm dependency whose code is
    not part of [conversation/v1.js].  Section 4.1 (Parameter Filter): given
    a mapping and an ordered set of allowed names, produce a new mapping
    with only the intersection, values kept as they are; a [null] or absent
    mapping is the empty mapping.  The package accepts plain objects and
    functions and answers [{}] for everything else. *)
Definition pick (params : value) (allowed : list string) : obj :=
  match props_of params with
  | Some o =>
      fold_left (fun res key => if has_key o key then set res key (get o key) else res)
                allowed []
  | None => []
  end.

(** ** The objects handed to the request factory *)

Inductive http_method : Type := GET | POST | PUT | DELETE.

(** [parameters.options]: every key a method of the facade may write.  A
    key the method leaves out is [None]; [json] left out is [false]. *)
Record Options : Type := mkOptions {
  url : string;
  method : http_method;
  json : bool;
  body : option obj;
  qs : option obj;
  path : option obj
}.

(** The service configuration held in [this._options]: the properties merged
    by the base service, with the default query mapping kept apart. *)
Record ServiceOptions : Type := mkServiceOptions {
  settings : obj;
  default_qs : obj
}.

Record Parameters : Type := mkParameters {
  options : Options;
  requiredParams : option (list string);
  defaultOptions : ServiceOptions
}.

Record Service : Type := mkService { _options : ServiceOptions }.

(** ** The facade

    Every method builds one [parameters] object and hands it, with the
    callback, to the request factory of [lib/requestwrapper].  The factory is
    a variable of the section: what the methods build does not depend on
    it. *)

Section Facade.

Variable R : Type.
Variable requestFactory : Parameters -> value -> R.

(** [ConversationV1.prototype.message], line 191. *)
Definition message (this : Service) (params callback : value) : R :=
  let params := or_else params (VObj []) in
  let parameters :=
    {| options :=
         {| url := "/v1/workspaces/{workspace_id}/message";
            method := POST;
            json := true;
            body := Some (pick params ["input"; "context"; "alternate_intents"; "output"; "entities"; "intents"]);
            qs := None;
            path := Some (pick params ["workspace_id"]) |};
       requiredParams := Some ["workspace_id"];
       defaultOptions := _options this |} in
  requestFactory parameters callback.

(** [ConversationV1.prototype.listWorkspaces], line 237. *)
Definition listWorkspaces (this : Service) (params callback : value) : R :=
  let '(params, callback) :=
    if (typeof params =? "function") && negb (truthy callback)
    then (VNull, params)
    else (params, callback) in
  let parameters :=
    {| options :=
         {| url := "/v1/workspaces";
            method := GET;
            json := false;
            body := None;
            qs := Some (pick params ["page_limit"; "include_count"; "sort"; "cursor"]);
            path := None |};
       requiredParams := None;
       defaultOptions := _options this |} in
  requestFactory parameters callback.

(** [ConversationV1.prototype.createWorkspace], line 357. *)
Definition createWorkspace (this : Service) (params callback : value) : R :=
  let params := or_else params (VObj []) in
  let parameters :=
    {| options :=
         {| url := "/v1/workspaces";
            method := POST;
            json := true;
            body := Some (pick params ["name"; "language"; "entities"; "intents"; "dialog_nodes"; "metadata"; "description"; "counterexamples"]);
            qs := None;
            path := None |};
       requiredParams := None;
       defaultOptions := _options this |} in
  requestFactory parameters callback.

(** [ConversationV1.prototype.getWorkspace], line 396. *)
Definition getWorkspace (this : Service) (params callback : value) : R :=
  let params := or_else params (VObj []) in
  let parameters :=
    {| options :=
         {| url := "/v1/workspaces/{workspace_id}";
            method := GET;
            json := true;
            body := None;
            qs := Some (pick params ["export"]);
            path := Some (pick params ["workspace_id"]) |};
       requiredParams := Some ["workspace_id"];
       defaultOptions := _options this |} in
  requestFactory parameters callback.

(** [ConversationV1.prototype.deleteWorkspace], line 424. *)
Definition deleteWorkspace (this : Service) (params callback : value) : R :=
  let params := or_else params (VObj []) in
  let parameters :=
    {| options :=
         {| url := "/v1/workspaces/{workspace_id}";
            method := DELETE;
            json := true;
            body := None;
            qs := None;
            path := Some (pick params ["workspace_id"]) |};
       requiredParams := Some ["workspace_id"];
       defaultOptions := _options this |} in
  requestFactory parameters callback.

(** [ConversationV1.prototype.updateWorkspace], line 547. *)
Definition updateWorkspace (this : Service) (params callback : value) : R :=
  let params := or_else params (VObj []) in
  let parameters :=
    {| options :=
         {| url := "/v1/workspaces/{workspace_id}";
            method := POST;
            json := true;
            body := Some (pick params ["name"; "language"; "entities"; "intents"; "dialog_nodes"; "metadata"; "description"; "counterexamples"]);
            qs := None;
            path := Some (pick params ["workspace_id"]) |};
       requiredParams := Some ["workspace_id"];
       defaultOptions := _options this |} in
  requestFactory parameters callback.

(** [ConversationV1.prototype.workspaceStatus], line 583. *)
Definition workspaceStatus (this : Service) (params callback : value) : R :=
  let params := or_else params (VObj []) in
  let parameters :=
    {| options :=
         {| url := "/v1/workspaces/{workspace_id}/status";
            method := GET;
            json := true;
            body := None;
            qs := None;
            path := Some (pick params ["workspace_id"]) |};
       requiredParams := Some ["workspace_id"];
       defaultOptions := _options this |} in
  requestFactory parameters callback.

(** [ConversationV1.prototype.createIntent], line 612. *)
Definition createIntent (this : Service) (params callback : value) : R :=
  let params := or_else params (VObj []) in
  let parameters :=
    {| options :=
         {| url := "/v1/workspaces/{workspace_id}/intents";
            method := POST;
            json := true;
            body := Some (pick params ["intent"; "description"; "examples"]);
            qs := None;
            path := Some (pick params ["workspace_id"]) |};
       requiredParams := Some ["workspace_id"; "intent"];
       defaultOptions := _options this |} in
  requestFactory parameters callback.

(** [ConversationV1.prototype.getIntents], line 644. *)
Definition getIntents (this : Service) (params callback : value) : R :=
  let params := or_else params (VObj []) in
  let parameters :=
    {| options :=
         {| url := "/v1/workspaces/{workspace_id}/intents";
            method := GET;
            json := true;
            body := None;
            qs := Some (pick params ["export"; "page_limit"; "include_count"; "sort"; "cursor"]);
            path := Some (pick params ["workspace_id"]) |};
       requiredParams := Some ["workspace_id"];
       defaultOptions := _options this |} in
  requestFactory parameters callback.

(** [ConversationV1.prototype.getIntent], line 673. *)
Definition getIntent (this : Service) (params callback : value) : R :=
  let params := or_else params (VObj []) in
  let parameters :=
    {| options :=
         {| url := "/v1/workspaces/{workspace_id}/intents/{intent}";
            method := GET;
            json := true;
            body := None;
            qs := Some (pick params ["export"]);
            path := Some (pick params ["workspace_id"; "intent"]) |};
       requiredParams := Some ["workspace_id"; "intent"];
       defaultOptions := _options this |} in
  requestFactory parameters callback.

(** [ConversationV1.prototype.updateIntent], line 704. *)
Definition updateIntent (this : Service) (params callback : value) : R :=
  let params := or_else params (VObj []) in
  let parameters :=
    {| options :=
         {| url := "/v1/workspaces/{workspace_id}/intents/{old_intent}";
            method := POST;
            json := true;
            body := Some (pick params ["intent"; "description"; "examples"]);
            qs := None;
            path := Some (pick params ["workspace_id"; "old_intent"]) |};
       requiredParams := Some ["workspace_id"; "old_intent"; "intent"];
       defaultOptions := _options this |} in
  requestFactory parameters callback.

(** [ConversationV1.prototype.deleteIntent], line 732. *)
Definition deleteIntent (this : Service) (params callback : value) : R :=
  let params := or_else params (VObj []) in
  let parameters :=
    {| options :=
         {| url := "/v1/workspaces/{workspace_id}/intents/{intent}";
            method := DELETE;
            json := true;
            body := None;
            qs := None;
            path := Some (pick params ["workspace_id"; "intent"]) |};
       requiredParams := Some ["workspace_id"; "intent"];
       defaultOptions := _options this |} in
  requestFactory parameters callback.

(** [ConversationV1.prototype.getExamples], line 763. *)
Definition getExamples (this : Service) (params callback : value) : R :=
  let params := or_else params (VObj []) in
  let parameters :=
    {| options :=
         {| url := "/v1/workspaces/{workspace_id}/intents/{intent}/examples";
            method := GET;
            json := true;
            body := None;
            qs := Some (pick params ["page_limit"; "include_count"; "sort"; "cursor"]);
            path := Some (pick params ["workspace_id"; "intent"]) |};
       requiredParams := Some ["workspace_id"; "intent"];
       defaultOptions := _options this |} in
  requestFactory parameters callback.

(** [ConversationV1.prototype.createExample], line 792. *)
Definition createExample (this : Service) (params callback : value) : R :=
  let params := or_else params (VObj []) in
  let parameters :=
    {| options :=
         {| url := "/v1/workspaces/{workspace_id}/intents/{intent}/examples";
            method := POST;
            json := true;
            body := Some (pick params ["text"]);
            qs := None;
            path := Some (pick params ["workspace_id"; "intent"]) |};
       requiredParams := Some ["workspace_id"; "intent"];
       defaultOptions := _options this |} in
  requestFactory parameters callback.

(** [ConversationV1.prototype.deleteExample], line 821. *)
Definition deleteExample (this : Service) (params callback : value) : R :=
  let params := or_else params (VObj []) in
  let parameters :=
    {| options :=
         {| url := "/v1/workspaces/{workspace_id}/intents/{intent}/examples/{text}";
            method := DELETE;
            json := true;
            body := None;
            qs := None;
            path := Some (pick params ["workspace_id"; "intent"; "text"]) |};
       requiredParams := Some ["workspace_id"; "intent"; "text"];
       defaultOptions := _options this |} in
  requestFactory parameters callback.

(** [ConversationV1.prototype.getExample], line 849. *)
Definition getExample (this : Service) (params callback : value) : R :=
  let params := or_else params (VObj []) in
  let parameters :=
    {| options :=
         {| url := "/v1/workspaces/{workspace_id}/intents/{intent}/examples/{text}";
            method := GET;
            json := true;
            body := None;
            qs := None;
            path := Some (pick params ["workspace_id"; "intent"; "text"]) |};
       requiredParams := Some ["workspace_id"; "intent"; "text"];
       defaultOptions := _options this |} in
  requestFactory parameters callback.

(** [ConversationV1.prototype.updateExample], line 878. *)
Definition updateExample (this : Service) (params callback : value) : R :=
  let params := or_else params (VObj []) in
  let parameters :=
    {| options :=
         {| url := "/v1/workspaces/{workspace_id}/intents/{intent}/examples/{old_text}";
            method := POST;
            json := true;
            body := Some (pick params ["text"]);
            qs := None;
            path := Some (pick params ["workspace_id"; "intent"; "old_text"]) |};
       requiredParams := Some ["workspace_id"; "intent"; "old_text"; "text"];
       defaultOptions := _options this |} in
  requestFactory parameters callback.

(** [ConversationV1.prototype.getCounterExamples], line 909. *)
Definition getCounterExamples (this : Service) (params callback : value) : R :=
  let params := or_else params (VObj []) in
  let parameters :=
    {| options :=
         {| url := "/v1/workspaces/{workspace_id}/counterexamples";
            method := GET;
            json := true;
            body := None;
            qs := Some (pick params ["page_limit"; "include_count"; "sort"; "cursor"]);
            path := Some (pick params ["workspace_id"]) |};
       requiredParams := Some ["workspace_id"];
       defaultOptions := _options this |} in
  requestFactory parameters callback.

(** [ConversationV1.prototype.createCounterExample], line 937. *)
Definition createCounterExample (this : Service) (params callback : value) : R :=
  let params := or_else params (VObj []) in
  let parameters :=
    {| options :=
         {| url := "/v1/workspaces/{workspace_id}/counterexamples";
            method := POST;
            json := true;
            body := Some (pick params ["text"]);
            qs := None;
            path := Some (pick params ["workspace_id"]) |};
       requiredParams := Some ["workspace_id"; "text"];
       defaultOptions := _options this |} in
  requestFactory parameters callback.

(** [ConversationV1.prototype.deleteCounterExample], line 965. *)
Definition deleteCounterExample (this : Service) (params callback : value) : R :=
  let params := or_else params (VObj []) in
  let parameters :=
    {| options :=
         {| url := "/v1/workspaces/{workspace_id}/counterexamples/{text}";
            method := DELETE;
            json := true;
            body := None;
            qs := None;
            path := Some (pick params ["workspace_id"; "text"]) |};
       requiredParams := Some ["workspace_id"; "text"];
       defaultOptions := _options this |} in
  requestFactory parameters callback.

(** [ConversationV1.prototype.getCounterExample], line 992. *)
Definition getCounterExample (this : Service) (params callback : value) : R :=
  let params := or_else params (VObj []) in
  let parameters :=
    {| options :=
         {| url := "/v1/workspaces/{workspace_id}/counterexamples/{text}";
            method := GET;
            json := true;
            body := None;
            qs := None;
            path := Some (pick params ["workspace_id"; "text"]) |};
       requiredParams := Some ["workspace_id"; "text"];
       defaultOptions := _options this |} in
  requestFactory parameters callback.

(** [ConversationV1.prototype.updateCounterExample], line 1020. *)
Definition updateCounterExample (this : Service) (params callback : value) : R :=
  let params := or_else params (VObj []) in
  let parameters :=
    {| options :=
         {| url := "/v1/workspaces/{workspace_id}/counterexamples/{old_text}";
            method := POST;
            json := true;
            body := Some (pick params ["text"]);
            qs := None;
            path := Some (pick params ["workspace_id"; "old_text"]) |};
       requiredParams := Some ["workspace_id"; "old_text"; "text"];
       defaultOptions := _options this |} in
  requestFactory parameters callback.

(** The methods of the facade, by name. *)
Inductive endpoint : Type :=
| E_message
| E_listWorkspaces
| E_createWorkspace
| E_getWorkspace
| E_deleteWorkspace
| E_updateWorkspace
| E_workspaceStatus
| E_createIntent
| E_getIntents
| E_getIntent
| E_updateIntent
| E_deleteIntent
| E_getExamples
| E_createExample
| E_deleteExample
| E_getExample
| E_updateExample
| E_getCounterExamples
| E_createCounterExample
| E_deleteCounterExample
| E_getCounterExample
| E_updateCounterExample.

Definition all_endpoints : list endpoint :=
  [E_message;
   E_listWorkspaces;
   E_createWorkspace;
   E_getWorkspace;
   E_deleteWorkspace;
   E_updateWorkspace;
   E_workspaceStatus;
   E_createIntent;
   E_getIntents;
   E_getIntent;
   E_updateIntent;
   E_deleteIntent;
   E_getExamples;
   E_createExample;
   E_deleteExample;
   E_getExample;
   E_updateExample;
   E_getCounterExamples;
   E_createCounterExample;
   E_deleteCounterExample;
   E_getCounterExample;
   E_updateCounterExample].

Definition call (e : endpoint) : Service -> value -> value -> R :=
  match e with
  | E_message => message
  | E_listWorkspaces => listWorkspaces
  | E_createWorkspace => createWorkspace
  | E_getWorkspace => getWorkspace
  | E_deleteWorkspace => deleteWorkspace
  | E_updateWorkspace => updateWorkspace
  | E_workspaceStatus => workspaceStatus
  | E_createIntent => createIntent
  | E_getIntents => getIntents
  | E_getIntent => getIntent
  | E_updateIntent => updateIntent
  | E_deleteIntent => deleteIntent
  | E_getExamples => getExamples
  | E_createExample => createExample
  | E_deleteExample => deleteExample
  | E_getExample => getExample
  | E_updateExample => updateExample
  | E_getCounterExamples => getCounterExamples
  | E_createCounterExample => createCounterExample
  | E_deleteCounterExample => deleteCounterExample
  | E_getCounterExample => getCounterExample
  | E_updateCounterExample => updateCounterExample
  end.

End Facade.

(** What a method hands to the request factory: its [parameters] object and
    the callback. *)
Definition parameters_of (e : endpoint) (this : Service) (params callback : value)
    : Parameters :=
  call (fun parameters _ => parameters) e this params callback.

Definition callback_of (e : endpoint) (this : Service) (params callback : value)
    : value :=
  call (fun _ callback => callback) e this params callback.

(** ** The declarations table

    What each method fixes: verb, URL template, the allowed body and query
    names, the names picked for the path, and the required names. *)

Record Declaration : Type := mkDeclaration {
  d_url : string;
  d_method : http_method;
  d_json : bool;
  d_body : option (list string);
  d_qs : option (list string);
  d_path : option (list string);
  d_required : option (list string)
}.

Definition declaration (e : endpoint) : Declaration :=
  match e with
  | E_message =>
      mkDeclaration "/v1/workspaces/{workspace_id}/message" POST true
        (Some ["input"; "context"; "alternate_intents"; "output"; "entities"; "intents"])
        None
        (Some ["workspace_id"])
        (Some ["workspace_id"])
  | E_listWorkspaces =>
      mkDeclaration "/v1/workspaces" GET false
        None
        (Some ["page_limit"; "include_count"; "sort"; "cursor"])
        None
        None
  | E_createWorkspace =>
      mkDeclaration "/v1/workspaces" POST true
        (Some ["name"; "language"; "entities"; "intents"; "dialog_nodes"; "metadata"; "description"; "counterexamples"])
        None
        None
        None
  | E_getWorkspace =>
      mkDeclaration "/v1/workspaces/{workspace_id}" GET true
        None
        (Some ["export"])
        (Some ["workspace_id"])
        (Some ["workspace_id"])
  | E_deleteWorkspace =>
      mkDeclaration "/v1/workspaces/{workspace_id}" DELETE true
        None
        None
        (Some ["workspace_id"])
        (Some ["workspace_id"])
  | E_updateWorkspace =>
      mkDeclaration "/v1/workspaces/{workspace_id}" POST true
        (Some ["name"; "language"; "entities"; "intents"; "dialog_nodes"; "metadata"; "description"; "counterexamples"])
        None
        (Some ["workspace_id"])
        (Some ["workspace_id"])
  | E_workspaceStatus =>
      mkDeclaration "/v1/workspaces/{workspace_id}/status" GET true
        None
        None
        (Some ["workspace_id"])
        (Some ["workspace_id"])
  | E_createIntent =>
      mkDeclaration "/v1/workspaces/{workspace_id}/intents" POST true
        (Some ["intent"; "description"; "examples"])
        None
        (Some ["workspace_id"])
        (Some ["workspace_id"; "intent"])
  | E_getIntents =>
      mkDeclaration "/v1/workspaces/{workspace_id}/intents" GET true
        None
        (Some ["export"; "page_limit"; "include_count"; "sort"; "cursor"])
        (Some ["workspace_id"])
        (Some ["workspace_id"])
  | E_getIntent =>
      mkDeclaration "/v1/workspaces/{workspace_id}/intents/{intent}" GET true
        None
        (Some ["export"])
        (Some ["workspace_id"; "intent"])
        (Some ["workspace_id"; "intent"])
  | E_updateIntent =>
      mkDeclaration "/v1/workspaces/{workspace_id}/intents/{old_intent}" POST true
        (Some ["intent"; "description"; "examples"])
        None
        (Some ["workspace_id"; "old_intent"])
        (Some ["workspace_id"; "old_intent"; "intent"])
  | E_deleteIntent =>
      mkDeclaration "/v1/workspaces/{workspace_id}/intents/{intent}" DELETE true
        None
        None
        (Some ["workspace_id"; "intent"])
        (Some ["workspace_id"; "intent"])
  | E_getExamples =>
      mkDeclaration "/v1/workspaces/{workspace_id}/intents/{intent}/examples" GET true
        None
        (Some ["page_limit"; "include_count"; "sort"; "cursor"])
        (Some ["workspace_id"; "intent"])
        (Some ["workspace_id"; "intent"])
  | E_createExample =>
      mkDeclaration "/v1/workspaces/{workspace_id}/intents/{intent}/examples" POST true
        (Some ["text"])
        None
        (Some ["workspace_id"; "intent"])
        (Some ["workspace_id"; "intent"])
  | E_deleteExample =>
      mkDeclaration "/v1/workspaces/{workspace_id}/intents/{intent}/examples/{text}" DELETE true
        None
        None
        (Some ["workspace_id"; "intent"; "text"])
        (Some ["workspace_id"; "intent"; "text"])
  | E_getExample =>
      mkDeclaration "/v1/workspaces/{workspace_id}/intents/{intent}/examples/{text}" GET true
        None
        None
        (Some ["workspace_id"; "intent"; "text"])
        (Some ["workspace_id"; "intent"; "text"])
  | E_updateExample =>
      mkDeclaration "/v1/workspaces/{workspace_id}/intents/{intent}/examples/{old_text}" POST true
        (Some ["text"])
        None
        (Some ["workspace_id"; "intent"; "old_text"])
        (Some ["workspace_id"; "intent"; "old_text"; "text"])
  | E_getCounterExamples =>
      mkDeclaration "/v1/workspaces/{workspace_id}/counterexamples" GET true
        None
        (Some ["page_limit"; "include_count"; "sort"; "cursor"])
        (Some ["workspace_id"])
        (Some ["workspace_id"])
  | E_createCounterExample =>
      mkDeclaration "/v1/workspaces/{workspace_id}/counterexamples" POST true
        (Some ["text"])
        None
        (Some ["workspace_id"])
        (Some ["workspace_id"; "text"])
  | E_deleteCounterExample =>
      mkDeclaration "/v1/workspaces/{workspace_id}/counterexamples/{text}" DELETE true
        None
        None
        (Some ["workspace_id"; "text"])
        (Some ["workspace_id"; "text"])
  | E_getCounterExample =>
      mkDeclaration "/v1/workspaces/{workspace_id}/counterexamples/{text}" GET true
        None
        None
        (Some ["workspace_id"; "text"])
        (Some ["workspace_id"; "text"])
  | E_updateCounterExample =>
      mkDeclaration "/v1/workspaces/{workspace_id}/counterexamples/{old_text}" POST true
        (Some ["text"])
        None
        (Some ["workspace_id"; "old_text"])
        (Some ["workspace_id"; "old_text"; "text"])
  end.

(** Build the [parameters] object of a declaration from call parameters that
    have already been normalised: the shape every method above has. *)
Definition build (d : Declaration) (this : Service) (params : value) : Parameters :=
  {| options :=
       {| url := d_url d;
          method := d_method d;
          json := d_json d;
          body := option_map (pick params) (d_body d);
          qs := option_map (pick params) (d_qs d);
          path := option_map (pick params) (d_path d) |};
     requiredParams := d_required d;
     defaultOptions := _options this |}.

(** What a method does to its two arguments before it builds anything:
    [params || {}] everywhere but in [listWorkspaces], which instead takes a
    function in first position, with no callback after it, for the callback. *)
Definition normalise (e : endpoint) (params callback : value) : value * value :=
  match e with
  | E_listWorkspaces =>
      if (typeof params =? "function") && negb (truthy callback)
      then (VNull, params)
      else (params, callback)
  | _ => (or_else params (VObj []), callback)
  end.

Definition names (l : option (list string)) : list string :=
  match l with Some l => l | None => [] end.

Definition mapping (o : option obj) : obj :=
  match o with Some o => o | None => [] end.

(** The names between braces in a URL template, left to right.  [cur] is
    the name being read, when the scan is inside a brace. *)
Fixpoint scan_placeholders (tpl : string) (cur : option string) : list string :=
  match tpl, cur with
  | EmptyString, _ => []
  | String c rest, None =>
      if (c =? "{")%char then scan_placeholders rest (Some EmptyString)
      else scan_placeholders rest None
  | String c rest, Some name =>
      if (c =? "}")%char then name :: scan_placeholders rest None
      else scan_placeholders rest (Some (name ++ String c EmptyString)%string)
  end.

Definition placeholders (tpl : string) : list string := scan_placeholders tpl None.

Definition mem (k : string) (l : list string) : bool := existsb (String.eqb k) l.

(** Every name a declaration lets through: body names, query names, and the
    path names of its URL template. *)
Definition allowed_names (d : Declaration) : list string :=
  names (d_body d) ++ names (d_qs d) ++ placeholders (d_url d).

(** The names that one of the method's [pick] calls lets through. *)
Definition let_through (d : Declaration) (k : string) : bool :=
  mem k (names (d_body d)) || mem k (names (d_qs d)) || mem k (names (d_path d)).

(** Every placeholder of the URL template is a required name and a picked
    path name. *)
Definition placeholders_covered (d : Declaration) : bool :=
  forallb (fun n => mem n (names (d_required d)) && mem n (names (d_path d)))
          (placeholders (d_url d)).

(** Every required name is let through by one of the [pick] calls. *)
Definition required_let_through (d : Declaration) : bool :=
  forallb (let_through d) (names (d_required d)).

Definition required_within_allowed (d : Declaration) : bool :=
  forallb (fun r => mem r (allowed_names d)) (names (d_required d)).

(** ** Construction *)

Inductive exn : Type :=
| Error (message : string)
| TypeError (message : string).

Inductive result (A : Type) : Type :=
| Ok (a : A)
| Throw (e : exn).
Arguments Ok {A} a.
Arguments Throw {A} e.

Definition URL : string := "https://gateway.watsonplatform.net/conversation/api".
Definition VERSION_DATE_2016_07_11 : string := "2016-07-11".
Definition VERSION_DATE_2016_09_20 : string := "2016-09-20".
Definition VERSION_DATE_2017_02_03 : string := "2017-02-03".

(** [undefined] and [null], the two values without properties. *)
Definition nullish (v : value) : bool :=
  match v with VUndefined | VNull => true | _ => false end.

(** The own properties of an array are its indices, in order. *)
Fixpoint array_props (i : nat) (items : list value) : obj :=
  match items with
  | [] => []
  | x :: rest => (NilZero.string_of_uint (Nat.to_uint i), x) :: array_props (S i) rest
  end.

(** The properties stored on a value.  Built-in ones ([length], the methods
    of the prototypes) are not part of the model. *)
Definition stored (v : value) : obj :=
  match v with
  | VObj o => o
  | VFun _ o => o
  | VArr items => array_props 0 items
  | _ => []
  end.

(** The values a property can be written on: objects, functions and arrays.
    In strict mode, which the file declares, a write on a primitive
    throws. *)
Definition holder (v : value) : option obj :=
  match v with
  | VObj o => Some o
  | VFun _ o => Some o
  | VArr items => Some (array_props 0 items)
  | _ => None
  end.

(** Reading [v.k]: a [TypeError] on [undefined] and [null]. *)
Definition read_property (v : value) (k : string) : result value :=
  if nullish v then Throw (TypeError "Cannot read property of undefined or null")
  else Ok (get (stored v) k).

Section Constructor.

(** [BaseService.call(this, options)] of [lib/base_service]: it leaves the
    merged options, a plain object, in [this._options], or throws. *)
Variable BaseService_call : value -> result obj.

(** [function ConversationV1(options)], line 30.  The assignment of line 37
    evaluates [this._options.qs], then [options.version_date], then writes:
    each step can throw a [TypeError].  The service keeps the merged options
    as its settings, and what [qs] holds after the write as its default
    query. *)
Definition ConversationV1 (options : value) : result Service :=
  match BaseService_call options with
  | Throw e => Throw e
  | Ok this_options =>
      if typeof (get this_options "version_date") =? "undefined" then
        Throw (Error "Argument error: version_date was not specified, use ConversationV1.VERSION_DATE_2017_02_03")
      else
        let target := get this_options "qs" in
        if nullish target then
          Throw (TypeError "Cannot set property of undefined or null")
        else
          match read_property options "version_date" with
          | Throw e => Throw e
          | Ok version =>
              match holder target with
              | None => Throw (TypeError "Cannot create property on a primitive")
              | Some q =>
                  Ok {| _options :=
                          {| settings := this_options;
                             default_qs := set q "version" version |} |}
              end
          end
  end.

End Constructor.

(** Modelled from the spec: [lib/base_service.js] is not among the sources.
    Sections 3 and 6: the service configuration holds the base URL, the
    credentials and a mapping of default query parameters, and a
    credential/config collaborator supplies values at construction time.
    The merged options are the facade's defaults, overlaid with what the
    collaborator supplies, overlaid with the properties of the constructor
    argument, if it has any. *)
Definition BaseService_merge (collaborator : obj) (options : value) : result obj :=
  Ok (assign (assign [("qs", VObj []); ("url", VStr URL)] collaborator) (stored options)).

(** ** The request dispatcher

    [lib/requestwrapper.js] is not among the sources: the definitions of this
    part follow sections 4.2 to 4.4 of the specification, over the
    [parameters] object that the facade really passes. *)

(** [String(v)], the string form of a value. *)
Fixpoint to_string (v : value) : string :=
  match v with
  | VUndefined => "undefined"
  | VNull => "null"
  | VBool true => "true"
  | VBool false => "false"
  | VNum n => NilZero.string_of_int (Z.to_int n)
  | VStr s => s
  | VArr items =>
      String.concat ","
        (map (fun i => match i with
                       | VUndefined | VNull => EmptyString
                       | _ => to_string i
                       end) items)
  | VObj _ => "[object Object]"
  | VFun text _ => text
  end.

(** The bytes [encodeURIComponent] keeps: letters, digits and [-_.!~*'()]. *)
Definition unreserved (c : ascii) : bool :=
  let n := nat_of_ascii c in
  ((48 <=? n)%nat && (n <=? 57)%nat) || ((65 <=? n)%nat && (n <=? 90)%nat)
  || ((97 <=? n)%nat && (n <=? 122)%nat)
  || existsb (Ascii.eqb c)
       ["-"; "_"; "."; "!"; "~"; "*"; "'"; "("; ")"]%char.

Definition hex_digit (n : nat) : ascii :=
  match String.get n "0123456789ABCDEF" with
  | Some c => c
  | None => "0"%char
  end.

Definition encode_byte (c : ascii) : string :=
  if unreserved c then String c EmptyString
  else String "%" (String (hex_digit (nat_of_ascii c / 16))
                          (String (hex_digit (nat_of_ascii c mod 16)) EmptyString)).

(** [encodeURIComponent(s)] on a UTF-8 byte string. *)
Fixpoint encodeURIComponent (s : string) : string :=
  match s with
  | EmptyString => EmptyString
  | String c rest => (encode_byte c ++ encodeURIComponent rest)%string
  end.

(** Modelled from the spec: the path template resolver of
    [lib/requestwrapper.js] is missing.  Section 4.2: replace each
    [{field}] placeholder with the percent-encoded string form of the
    corresponding value; the resolver fails fatally ([None]) when a
    placeholder has no value.  A brace that is never closed is plain text. *)
Fixpoint resolve (tpl : string) (values : obj) (cur : option string) : option string :=
  match tpl, cur with
  | EmptyString, None => Some EmptyString
  | EmptyString, Some name => Some (String "{" name)
  | String c rest, None =>
      if (c =? "{")%char then resolve rest values (Some EmptyString)
      else option_map (String c) (resolve rest values None)
  | String c rest, Some name =>
      if (c =? "}")%char then
        if is_undefined (get values name) then None
        else option_map (append (encodeURIComponent (to_string (get values name))))
                        (resolve rest values None)
      else resolve rest values (Some (name ++ String c EmptyString)%string)
  end.

(** Modelled from the spec: section 4.2, the resolver started outside any
    brace. *)
Definition parsePath (tpl : string) (values : obj) : option string :=
  resolve tpl values None.

(** A string still holds a [{...}] token when some ["{"] is followed, at any
    distance, by a ["}"]. *)
Fixpoint has_char (c : ascii) (s : string) : bool :=
  match s with
  | EmptyString => false
  | String c' rest => (c' =? c)%char || has_char c rest
  end.

Fixpoint has_token (s : string) : bool :=
  match s with
  | EmptyString => false
  | String c rest =>
      ((c =? "{")%char && has_char "}" rest) || has_token rest
  end.

Inductive error : Type :=
| MissingRequiredParameter (field : string)
| TransportError (status : option Z) (message : string) (raw : option string)
| DecodeError.

Inductive Completion : Type :=
| Success (payload : value)
| Failure (e : error).

Record OutboundRequest : Type := mkRequest {
  r_method : http_method;
  r_url : string;
  r_query : obj;
  r_body : option obj;
  r_json : bool;
  r_auth : value
}.

(** What the transport collaborator answers. *)
Inductive TransportReply : Type :=
| Reply (status : Z) (message : string) (raw : string)
| Unreachable (message : string).

(** One dispatch, as seen from outside: the callback that receives the
    completion, the completion, and the requests given to the transport. *)
Record Dispatch : Type := mkDispatch {
  notified : value;
  completion : Completion;
  sent : list OutboundRequest
}.

(** Modelled from the spec: the required-field validator of
    [lib/requestwrapper.js] is missing.  Section 4.3: every required key must
    be present with a defined value; the first missing field is reported.
    The facade passes the partitions of the call parameters, not the raw
    mapping, so a field is supplied when one partition defines it. *)
Definition supplied (o : Options) (k : string) : bool :=
  existsb (fun part => negb (is_undefined (get part k)))
          [mapping (path o); mapping (body o); mapping (qs o)].

(** Modelled from the spec: section 4.3 again, the first required field
    that is not supplied, if any. *)
Definition getMissingParams (o : Options) (required : option (list string)) : option string :=
  find (fun k => negb (supplied o k)) (names required).

Section Dispatcher.

Variable transport : OutboundRequest -> TransportReply.
Variable decode : string -> option value.

(** Modelled from the spec: the completion step of [lib/requestwrapper.js]
    is missing.  Section 4.4, step 7: a 2xx reply is decoded when the
    operation returns JSON and delivered as the success; any other reply,
    or a network failure, is a [TransportError]; a body that does not decode
    is a [DecodeError]. *)
Definition complete (as_json : bool) (reply : TransportReply) : Completion :=
  match reply with
  | Unreachable message => Failure (TransportError None message None)
  | Reply status message raw =>
      if ((200 <=? status) && (status <? 300))%Z then
        if as_json then
          match decode raw with
          | Some payload => Success payload
          | None => Failure DecodeError
          end
        else Success (VStr raw)
      else Failure (TransportError (Some status) message (Some raw))
  end.

(** Modelled from the spec: [requestFactory] of [lib/requestwrapper.js] is
    missing.  Section 4.4, steps 1 to 7: validate the required fields and
    stop on the first missing one without any network call; keep the body
    unless the method is GET; merge the query with the default query, the
    default entries winning; resolve the path and prefix the base URL;
    build the request with the service's auth; submit it; complete. *)
Definition requestFactory (parameters : Parameters) (callback : value) : result Dispatch :=
  let o := options parameters in
  let defaults := defaultOptions parameters in
  match getMissingParams o (requiredParams parameters) with
  | Some field =>
      Ok {| notified := callback;
            completion := Failure (MissingRequiredParameter field);
            sent := [] |}
  | None =>
      let request_body := match method o with GET => None | _ => body o end in
      let query := assign (mapping (qs o)) (default_qs defaults) in
      match parsePath (url o) (mapping (path o)) with
      | None => Throw (Error "unresolved path placeholder")
      | Some resolved =>
          let request :=
            {| r_method := method o;
               r_url := (to_string (get (settings defaults) "url") ++ resolved)%string;
               r_query := query;
               r_body := request_body;
               r_json := json o;
               r_auth := get (settings defaults) "credentials" |} in
          Ok {| notified := callback;
                completion := complete (json o) (transport request);
                sent := [request] |}
      end
  end.

(** A method of the facade, dispatched. *)
Definition dispatch (e : endpoint) (this : Service) (params callback : value) : result Dispatch :=
  call requestFactory e this params callback.

(** Section 4.4's [dispatch(declaration, callParameters, serviceDefaults)]. *)
Definition dispatch_declaration (d : Declaration) (this : Service) (params : obj)
    (callback : value) : result Dispatch :=
  requestFactory (build d this (VObj params)) callback.

End Dispatcher.

(** ** Checks over the table *)

Definition disjoint (l1 l2 : list string) : bool :=
  forallb (fun k => negb (mem k l2)) l1.

(** No name is picked for two positions of one request. *)
Definition partitions_disjoint (d : Declaration) : bool :=
  disjoint (names (d_body d)) (names (d_qs d))
  && disjoint (names (d_body d)) (names (d_path d))
  && disjoint (names (d_qs d)) (names (d_path d)).

(** Every required name is a placeholder of the URL or a body name. *)
Definition required_from_path_or_body (d : Declaration) : bool :=
  forallb (fun r => mem r (placeholders (d_url d)) || mem r (names (d_body d)))
          (names (d_required d)).

(** ** Sample collaborators and inputs, for the examples *)

Definition sample_transport : OutboundRequest -> TransportReply :=
  fun _ => Reply 200 "OK" "{}".

Definition sample_decode : string -> option value :=
  fun _ => Some (VObj []).

Definition sample_options : obj := [("version_date", VStr VERSION_DATE_2017_02_03)].

(** What the base service merges from [sample_options] when the
    collaborator supplies nothing. *)
Definition sample_merged : obj :=
  [("qs", VObj []); ("url", VStr URL);
   ("version_date", VStr VERSION_DATE_2017_02_03)].

(** What a collaborator supplies when the version comes from the
    configuration and not from the caller. *)
Definition sample_collaborator : obj :=
  [("version_date", VStr VERSION_DATE_2017_02_03)].

(** What [new ConversationV1(sample_options)] then holds. *)
Definition sample_service : Service :=
  {| _options :=
       {| settings := [("qs", VObj []); ("url", VStr URL);
                       ("version_date", VStr VERSION_DATE_2017_02_03)];
          default_qs := [("version", VStr VERSION_DATE_2017_02_03)] |} |}.

Definition sample_listing : OutboundRequest :=
  {| r_method := GET;
     r_url := (URL ++ "/v1/workspaces")%string;
     r_query := [("version", VStr VERSION_DATE_2017_02_03)];
     r_body := None;
     r_json := false;
     r_auth := VUndefined |}.

(** * Properties *)

(** ** Objects *)

Lemma typeof_undefined (v : value) :
  (typeof v =? "undefined") = is_undefined v.
Proof. destruct v; reflexivity. Qed.

Lemma is_undefined_true (v : value) : is_undefined v = true <-> v = VUndefined.
Proof. destruct v; simpl; split; congruence. Qed.

Lemma is_undefined_false (v : value) : is_undefined v = false <-> v <> VUndefined.
Proof. destruct v; simpl; split; congruence. Qed.

Lemma mem_In (k : string) (l : list string) : mem k l = true <-> In k l.
Proof.
  unfold mem. rewrite existsb_exists. split.
  - intros [x [Hx Heq]]. apply String.eqb_eq in Heq. now subst.
  - intros H. exists k. split; [assumption | apply String.eqb_refl].
Qed.

Lemma mem_app (k : string) (l1 l2 : list string) :
  mem k (l1 ++ l2) = mem k l1 || mem k l2.
Proof. unfold mem. apply existsb_app. Qed.

Lemma has_key_keys (o : obj) (k : string) : has_key o k = mem k (keys o).
Proof.
  induction o as [|[k' v] o IH]; simpl; [reflexivity|].
  rewrite IH. now rewrite (String.eqb_sym k k').
Qed.

Lemma get_absent (o : obj) (k : string) : has_key o k = false -> get o k = VUndefined.
Proof.
  induction o as [|[k' v] o IH]; simpl; [reflexivity|].
  destruct (k' =? k); simpl; [discriminate | exact IH].
Qed.

Lemma get_set (o : obj) (k k' : string) (v : value) :
  get (set o k v) k' = if k =? k' then v else get o k'.
Proof.
  induction o as [|[k0 v0] o IH]; simpl.
  - reflexivity.
  - destruct (k0 =? k) eqn:E0; simpl.
    + apply String.eqb_eq in E0. subst k0. now destruct (k =? k').
    + destruct (k0 =? k') eqn:E1.
      * apply String.eqb_eq in E1. subst k0. now rewrite String.eqb_sym, E0.
      * exact IH.
Qed.

Lemma has_key_set (o : obj) (k k' : string) (v : value) :
  has_key (set o k v) k' = (k =? k') || has_key o k'.
Proof.
  induction o as [|[k0 v0] o IH]; simpl.
  - now rewrite orb_false_r.
  - destruct (k0 =? k) eqn:E0; simpl.
    + apply String.eqb_eq in E0. subst k0. now destruct (k =? k').
    + rewrite IH. now destruct (k0 =? k'), (k =? k').
Qed.

(** The loop shared by [pick] and [Object.assign]: copy [source[key]] for
    each listed key that passes the test. *)
Lemma copy_get (source : obj) (test : string -> bool) (ks : list string) :
  forall (acc : obj) (k : string),
    get (fold_left (fun res key => if test key then set res key (get source key) else res)
                   ks acc) k
    = if mem k ks && test k then get source k else get acc k.
Proof.
  induction ks as [|k0 ks IH]; intros acc k; simpl; [reflexivity|].
  rewrite IH. destruct (k =? k0) eqn:E; simpl.
  - apply String.eqb_eq in E. subst k0.
    destruct (test k) eqn:T.
    + rewrite get_set, String.eqb_refl. now destruct (mem k ks).
    + now rewrite andb_false_r.
  - destruct (mem k ks && test k); [reflexivity|].
    destruct (test k0); [|reflexivity].
    now rewrite get_set, String.eqb_sym, E.
Qed.

Lemma copy_has_key (source : obj) (test : string -> bool) (ks : list string) :
  forall (acc : obj) (k : string),
    has_key (fold_left (fun res key => if test key then set res key (get source key) else res)
                       ks acc) k
    = (mem k ks && test k) || has_key acc k.
Proof.
  induction ks as [|k0 ks IH]; intros acc k; simpl; [reflexivity|].
  rewrite IH. destruct (k =? k0) eqn:E; simpl.
  - apply String.eqb_eq in E. subst k0.
    destruct (test k) eqn:T.
    + rewrite has_key_set, String.eqb_refl. simpl. now rewrite !orb_true_r.
    + now rewrite !andb_false_r.
  - destruct (test k0); [|reflexivity].
    now rewrite has_key_set, String.eqb_sym, E.
Qed.

Lemma get_assign (target source : obj) (k : string) :
  get (assign target source) k = if has_key source k then get source k else get target k.
Proof.
  unfold assign.
  rewrite (copy_get source (fun _ => true) (keys source) target k).
  now rewrite andb_true_r, has_key_keys.
Qed.

Lemma has_key_assign (target source : obj) (k : string) :
  has_key (assign target source) k = has_key source k || has_key target k.
Proof.
  unfold assign.
  rewrite (copy_has_key source (fun _ => true) (keys source) target k).
  now rewrite andb_true_r, (has_key_keys source).
Qed.

(** ** The parameter filter *)

Lemma get_pick (o : obj) (allowed : list string) (k : string) :
  get (pick (VObj o) allowed) k = if mem k allowed then get o k else VUndefined.
Proof.
  unfold pick; simpl. rewrite copy_get. simpl.
  destruct (mem k allowed); simpl; [|reflexivity].
  destruct (has_key o k) eqn:H; [reflexivity|].
  symmetry. now apply get_absent.
Qed.

Lemma has_key_pick (p : value) (allowed : list string) (k : string) :
  has_key (pick p allowed) k = true ->
  In k allowed /\ exists o, props_of p = Some o /\ has_key o k = true.
Proof.
  unfold pick. destruct (props_of p) as [o|] eqn:Hp; simpl; [|discriminate].
  rewrite copy_has_key. simpl. rewrite orb_false_r.
  intros H. apply andb_true_iff in H. destruct H as [Hm Hk].
  split; [now apply mem_In | now exists o].
Qed.

Lemma pick_function (text : string) (o : obj) (allowed : list string) :
  pick (VFun text o) allowed = pick (VObj o) allowed.
Proof. reflexivity. Qed.

Lemma pick_no_props (p : value) (allowed : list string) :
  props_of p = None -> pick p allowed = [].
Proof. unfold pick. now intros ->. Qed.

Lemma pick_empty (allowed : list string) : pick (VObj []) allowed = [].
Proof.
  unfold pick; simpl. induction allowed as [|k ks IH]; simpl; [reflexivity | exact IH].
Qed.

(** Two mappings that agree on the allowed names have the same filtering. *)
Lemma pick_ext (o o' : obj) (allowed : list string) :
  (forall k, In k allowed -> has_key o k = has_key o' k /\ get o k = get o' k) ->
  pick (VObj o) allowed = pick (VObj o') allowed.
Proof.
  unfold pick; simpl. generalize (@nil (string * value)).
  induction allowed as [|k ks IH]; intros acc H; simpl; [reflexivity|].
  destruct (H k (or_introl eq_refl)) as [Hk Hg]. rewrite Hk, Hg.
  apply IH. intros k' Hin. apply H. now right.
Qed.

(** ** The facade and its table *)

(** The table and [normalise] describe every method exactly. *)
Lemma call_normalise (R : Type) (rf : Parameters -> value -> R)
    (e : endpoint) (this : Service) (params callback : value) :
  call rf e this params callback
  = rf (build (declaration e) this (fst (normalise e params callback)))
       (snd (normalise e params callback)).
Proof.
  destruct e; try reflexivity.
  unfold call, listWorkspaces, normalise.
  destruct ((typeof params =? "function") && negb (truthy callback)); reflexivity.
Qed.

Lemma normalise_mapping (e : endpoint) (o : obj) (callback : value) :
  normalise e (VObj o) callback = (VObj o, callback).
Proof. destruct e; reflexivity. Qed.

Lemma call_mapping (R : Type) (rf : Parameters -> value -> R)
    (e : endpoint) (this : Service) (o : obj) (callback : value) :
  call rf e this (VObj o) callback = rf (build (declaration e) this (VObj o)) callback.
Proof. now rewrite call_normalise, normalise_mapping. Qed.

Lemma get_partition (o : obj) (l : option (list string)) (k : string) :
  get (mapping (option_map (pick (VObj o)) l)) k
  = if mem k (names l) then get o k else VUndefined.
Proof. destruct l as [l|]; simpl; [apply get_pick | reflexivity]. Qed.

Lemma has_key_partition (p : value) (l : option (list string)) (k : string) :
  has_key (mapping (option_map (pick p) l)) k = true -> In k (names l).
Proof.
  destruct l as [l|]; simpl; [|discriminate].
  intros H. now apply has_key_pick in H.
Qed.

(** ** Required-field validation *)

Lemma supplied_build (d : Declaration) (this : Service) (o : obj) (k : string) :
  supplied (options (build d this (VObj o))) k
  = negb (is_undefined (get o k)) && let_through d k.
Proof.
  unfold supplied, let_through, build; simpl.
  rewrite !get_partition.
  destruct (mem k (names (d_body d))), (mem k (names (d_qs d))),
    (mem k (names (d_path d))), (is_undefined (get o k)); reflexivity.
Qed.

Lemma find_ext (A : Type) (f g : A -> bool) (l : list A) :
  (forall x, In x l -> f x = g x) -> find f l = find g l.
Proof.
  induction l as [|a l IH]; intros H; simpl; [reflexivity|].
  rewrite (H a (or_introl eq_refl)). destruct (g a); [reflexivity|].
  apply IH. intros x Hx. apply H. now right.
Qed.

Lemma getMissingParams_build (d : Declaration) (this : Service) (o : obj) :
  getMissingParams (options (build d this (VObj o))) (d_required d)
  = find (fun k => is_undefined (get o k) || negb (let_through d k))
         (names (d_required d)).
Proof.
  unfold getMissingParams. apply find_ext. intros k _.
  rewrite supplied_build.
  now destruct (is_undefined (get o k)), (let_through d k).
Qed.

Lemma required_let_through_all (e : endpoint) :
  required_let_through (declaration e) = true.
Proof. destruct e; reflexivity. Qed.

Section DispatchProperties.

Variable transport : OutboundRequest -> TransportReply.
Variable decode : string -> option value.

(** C1.  For every declaration [d] and parameter mapping [P]: when [P] lacks
    a field [f] of [d]'s required set, the dispatch completes with
    [MissingRequiredParameter] and nothing is given to the transport.  The
    field named is the first required one that is not supplied; it is [f]
    itself whenever the other required fields are supplied.  For a method of
    the facade the field named is the first required one that [P] lacks.  In
    particular [getIntent] with [{workspace_id: "ws1"}] completes with
    [MissingRequiredParameter "intent"] and sends nothing. *)
Theorem C1_missing_required_parameter :
  (forall (d : Declaration) (this : Service) (P : obj) (callback : value) (f : string),
      In f (names (d_required d)) ->
      get P f = VUndefined ->
      exists g,
        dispatch_declaration transport decode d this P callback
        = Ok {| notified := callback;
                completion := Failure (MissingRequiredParameter g);
                sent := [] |}
        /\ find (fun k => is_undefined (get P k) || negb (let_through d k))
                (names (d_required d)) = Some g
        /\ In g (names (d_required d))
        /\ ((forall h, In h (names (d_required d)) -> h <> f ->
                       get P h <> VUndefined /\ let_through d h = true) ->
            g = f))
  /\ (forall (e : endpoint) (this : Service) (P : obj) (callback : value) (f : string),
         In f (names (d_required (declaration e))) ->
         get P f = VUndefined ->
         exists g,
           dispatch transport decode e this (VObj P) callback
           = Ok {| notified := callback;
                   completion := Failure (MissingRequiredParameter g);
                   sent := [] |}
           /\ find (fun k => is_undefined (get P k))
                   (names (d_required (declaration e))) = Some g)
  /\ (forall (this : Service) (callback : value),
         dispatch transport decode E_getIntent this
                  (VObj [("workspace_id", VStr "ws1")]) callback
         = Ok {| notified := callback;
                 completion := Failure (MissingRequiredParameter "intent");
                 sent := [] |}).
Proof.
  split; [|split].
  - intros d this P callback f Hin Hmiss.
    unfold dispatch_declaration, requestFactory.
    change (requiredParams (build d this (VObj P))) with (d_required d).
    rewrite getMissingParams_build.
    destruct (find _ (names (d_required d))) as [g|] eqn:Hfind.
    + exists g. apply find_some in Hfind as Hg. destruct Hg as [Hg Hpred].
      repeat split; try assumption.
      intros Hothers. destruct (string_dec g f) as [|Hne]; [assumption|].
      destruct (Hothers g Hg Hne) as [Hdef Hlet].
      apply is_undefined_false in Hdef. rewrite Hdef, Hlet in Hpred. discriminate.
    + apply find_none with (x := f) in Hfind; [|assumption].
      rewrite Hmiss in Hfind. discriminate.
  - intros e this P callback f Hin Hmiss.
    unfold dispatch. rewrite call_mapping. unfold requestFactory.
    change (requiredParams (build (declaration e) this (VObj P)))
      with (d_required (declaration e)).
    rewrite getMissingParams_build.
    rewrite (find_ext (fun k => is_undefined (get P k) || negb (let_through (declaration e) k))
                      (fun k => is_undefined (get P k))).
    + destruct (find _ (names (d_required (declaration e)))) as [g|] eqn:Hfind.
      * exists g. split; reflexivity.
      * apply find_none with (x := f) in Hfind; [|assumption].
        rewrite Hmiss in Hfind. discriminate.
    + intros k Hk. pose proof (required_let_through_all e) as Hall.
      unfold required_let_through in Hall. rewrite forallb_forall in Hall.
      rewrite (Hall k Hk). apply orb_false_r.
  - intros this callback. reflexivity.
Qed.

(** What a dispatch that reaches the transport has sent. *)
Lemma requestFactory_sent (parameters : Parameters) (callback : value)
    (d : Dispatch) (req : OutboundRequest) :
  requestFactory transport decode parameters callback = Ok d ->
  In req (sent d) ->
  exists resolved,
    parsePath (url (options parameters)) (mapping (path (options parameters)))
    = Some resolved
    /\ getMissingParams (options parameters) (requiredParams parameters) = None
    /\ sent d = [req]
    /\ notified d = callback
    /\ completion d = complete decode (json (options parameters)) (transport req)
    /\ req = {| r_method := method (options parameters);
                r_url := (to_string (get (settings (defaultOptions parameters)) "url")
                          ++ resolved)%string;
                r_query := assign (mapping (qs (options parameters)))
                                  (default_qs (defaultOptions parameters));
                r_body := match method (options parameters) with
                          | GET => None
                          | _ => body (options parameters)
                          end;
                r_json := json (options parameters);
                r_auth := get (settings (defaultOptions parameters)) "credentials" |}.
Proof.
  unfold requestFactory.
  destruct (getMissingParams _ _) as [field|].
  - intros H; inversion H; subst; simpl. contradiction.
  - destruct (parsePath _ _) as [resolved|]; [|discriminate].
    intros H; inversion H; subst; clear H; simpl.
    intros [<-|[]]. exists resolved. repeat split.
Qed.

Lemma build_ext (d : Declaration) (this : Service) (P P' : obj) :
  (forall k, let_through d k = true ->
             has_key P k = has_key P' k /\ get P k = get P' k) ->
  build d this (VObj P) = build d this (VObj P').
Proof.
  intros H. unfold build.
  assert (Hpart : forall l, (forall k, In k (names l) -> let_through d k = true) ->
                            option_map (pick (VObj P)) l = option_map (pick (VObj P')) l).
  { intros [l|] Hl; simpl; [|reflexivity]. f_equal. apply pick_ext.
    intros k Hk. apply H, Hl, Hk. }
  rewrite (Hpart (d_body d)), (Hpart (d_qs d)), (Hpart (d_path d)); [reflexivity | | |];
    intros k Hk; apply mem_In in Hk; unfold let_through; rewrite Hk;
    now rewrite ?orb_true_r.
Qed.

(** C2.  For every method and every first argument: the body, query and path
    mappings that the method builds hold only names of its allowed sets; in
    a request given to the transport the body holds only allowed body names,
    the query holds only allowed query names and the service's default
    names, and a name outside the allowed query names carries the default's
    value; two parameter mappings that agree on the allowed names give the
    same dispatch, so a further key changes nothing in the request. *)
Theorem C2_extra_keys_never_leak :
  (forall (e : endpoint) (this : Service) (params callback : value) (k : string),
      let o := options (parameters_of e this params callback) in
      (has_key (mapping (body o)) k = true -> In k (names (d_body (declaration e))))
      /\ (has_key (mapping (qs o)) k = true -> In k (names (d_qs (declaration e))))
      /\ (has_key (mapping (path o)) k = true -> In k (names (d_path (declaration e)))))
  /\ (forall (e : endpoint) (this : Service) (params callback : value)
             (d : Dispatch) (req : OutboundRequest) (k : string),
         dispatch transport decode e this params callback = Ok d ->
         In req (sent d) ->
         (has_key (mapping (r_body req)) k = true ->
          In k (names (d_body (declaration e))))
         /\ (has_key (r_query req) k = true ->
             In k (names (d_qs (declaration e)))
             \/ has_key (default_qs (_options this)) k = true)
         /\ (~ In k (names (d_qs (declaration e))) ->
             get (r_query req) k = get (default_qs (_options this)) k))
  /\ (forall (e : endpoint) (this : Service) (P P' : obj) (callback : value),
         (forall k, let_through (declaration e) k = true ->
                    has_key P k = has_key P' k /\ get P k = get P' k) ->
         dispatch transport decode e this (VObj P) callback
         = dispatch transport decode e this (VObj P') callback).
Proof.
  split; [|split].
  - intros e this params callback k. unfold parameters_of.
    rewrite call_normalise. simpl.
    repeat split; apply has_key_partition.
  - intros e this params callback d req k Hd Hreq.
    unfold dispatch in Hd. rewrite call_normalise in Hd.
    destruct (@requestFactory_sent _ _ _ _ Hd Hreq) as (resolved & _ & _ & _ & _ & _ & ->).
    simpl. repeat split.
    + intros H. apply (@has_key_partition (fst (normalise e params callback))).
      destruct (d_method (declaration e)); [discriminate | exact H ..].
    + rewrite has_key_assign. intros H. apply orb_true_iff in H.
      destruct H as [H|H]; [now right | left].
      now apply has_key_partition in H.
    + intros Hout. rewrite get_assign.
      destruct (has_key (default_qs (_options this)) k) eqn:Hk; [reflexivity|].
      rewrite (@get_absent _ _ Hk). apply get_absent.
      apply not_true_is_false. intros Hq.
      apply has_key_partition in Hq. contradiction.
  - intros e this P P' callback H. unfold dispatch.
    rewrite !call_mapping. now rewrite (@build_ext _ this _ _ H).
Qed.

End DispatchProperties.

(** ** Construction *)

Lemma holder_not_nullish (v : value) (q : obj) :
  holder v = Some q -> nullish v = false.
Proof. destruct v; simpl; congruence. Qed.

Lemma ConversationV1_ok (BaseService_call : value -> result obj)
    (options : value) (this : Service) :
  ConversationV1 BaseService_call options = Ok this ->
  exists merged q,
    BaseService_call options = Ok merged
    /\ get merged "version_date" <> VUndefined
    /\ nullish options = false
    /\ holder (get merged "qs") = Some q
    /\ this = {| _options :=
                   {| settings := merged;
                      default_qs := set q "version"
                                        (get (stored options) "version_date") |} |}.
Proof.
  unfold ConversationV1, read_property.
  destruct (BaseService_call options) as [merged|e]; [|discriminate].
  rewrite typeof_undefined.
  destruct (is_undefined (get merged "version_date")) eqn:Hv; [discriminate|].
  destruct (nullish (get merged "qs")); [discriminate|].
  destruct (nullish options) eqn:Hn; [discriminate|].
  destruct (holder (get merged "qs")) as [q|] eqn:Hq; [|discriminate].
  intros H. inversion H. exists merged, q.
  split; [reflexivity|]. split; [now apply is_undefined_false|].
  split; [reflexivity|]. split; [exact Hq | reflexivity].
Qed.

(** When the test of line 34 has passed, line 37 throws a [TypeError] for an
    argument that is [undefined] or [null], and for a merged [qs] that
    cannot take a property. *)
Lemma ConversationV1_type_error (BaseService_call : value -> result obj)
    (options : value) (merged : obj) :
  BaseService_call options = Ok merged ->
  get merged "version_date" <> VUndefined ->
  nullish options = true \/ holder (get merged "qs") = None ->
  exists message, ConversationV1 BaseService_call options = Throw (TypeError message).
Proof.
  intros Hbase Hdef Hbad. apply is_undefined_false in Hdef.
  unfold ConversationV1, read_property. rewrite Hbase, typeof_undefined, Hdef.
  destruct (nullish (get merged "qs")) eqn:Hq; [eexists; reflexivity|].
  destruct (nullish options) eqn:Hn; [eexists; reflexivity|].
  destruct Hbad as [Hbad | Hbad]; [discriminate|].
  rewrite Hbad. eexists; reflexivity.
Qed.

(** C6.  Once the base service has merged the options:
    construction throws the argument error when [version_date] is absent
    from the merged options (no such key, or [undefined] under it); when it
    is present, construction returns a service provided the constructor
    argument is neither [undefined] nor [null] and the merged [qs] can take
    a property. *)
Theorem C6_version_date_mandatory
    (BaseService_call : value -> result obj)
    (options : value) (merged : obj) :
  BaseService_call options = Ok merged ->
  (get merged "version_date" = VUndefined ->
   ConversationV1 BaseService_call options
   = Throw (Error "Argument error: version_date was not specified, use ConversationV1.VERSION_DATE_2017_02_03"))
  /\ (get merged "version_date" <> VUndefined ->
      nullish options = false ->
      forall q, holder (get merged "qs") = Some q ->
      exists this, ConversationV1 BaseService_call options = Ok this
                   /\ settings (_options this) = merged).
Proof.
  intros Hbase. unfold ConversationV1, read_property.
  rewrite Hbase, typeof_undefined. split.
  - intros ->. reflexivity.
  - intros Hdef Hn q Hq. apply is_undefined_false in Hdef.
    rewrite Hdef, (holder_not_nullish _ Hq), Hn, Hq.
    eexists. split; reflexivity.
Qed.

(** C6 does not hold without that proviso: with a [version_date] that the collaborator
    supplies and no constructor argument, the merged options hold
    [version_date], the test of line 34 passes, and line 37 throws a
    [TypeError] on [options.version_date]: construction does not succeed. *)
Lemma C6_counterexample :
  exists merged message,
    BaseService_merge sample_collaborator VUndefined = Ok merged
    /\ get merged "version_date" = VStr VERSION_DATE_2017_02_03
    /\ ConversationV1 (BaseService_merge sample_collaborator) VUndefined
       = Throw (TypeError message)
    /\ ~ (exists this,
            ConversationV1 (BaseService_merge sample_collaborator) VUndefined = Ok this).
Proof.
  eexists. eexists. split; [reflexivity|]. split; [reflexivity|].
  split; [reflexivity|]. intros [this H]. discriminate H.
Qed.

(** C9.  When construction succeeds, the [version] entry of the default
    query is the raw argument's [version_date], while the value that passed
    the presence check is the merged options' [version_date].  With the base
    service merging a collaborator-supplied [version_date] under an argument
    that has none, construction succeeds and [version] is [undefined], not
    the merged value. *)
Theorem C9_version_from_raw_argument :
  (forall (BaseService_call : value -> result obj) (options : value)
          (this : Service),
      ConversationV1 BaseService_call options = Ok this ->
      get (default_qs (_options this)) "version"
      = get (stored options) "version_date"
      /\ exists merged, BaseService_call options = Ok merged
                        /\ get merged "version_date" <> VUndefined)
  /\ (exists (collaborator options : obj) (merged : obj) (this : Service),
         get options "version_date" = VUndefined
         /\ BaseService_merge collaborator (VObj options) = Ok merged
         /\ get merged "version_date" = VStr VERSION_DATE_2017_02_03
         /\ ConversationV1 (BaseService_merge collaborator) (VObj options) = Ok this
         /\ get (default_qs (_options this)) "version" = VUndefined).
Proof.
  split.
  - intros BaseService_call options this H.
    apply ConversationV1_ok in H.
    destruct H as (merged & q & Hbase & Hdef & _ & _ & ->).
    simpl. split.
    + now rewrite get_set, String.eqb_refl.
    + now exists merged.
  - exists [("version_date", VStr VERSION_DATE_2017_02_03)], [].
    eexists. eexists. repeat split.
Qed.

Section VersionProperties.

Variable transport : OutboundRequest -> TransportReply.
Variable decode : string -> option value.

(** C3.  For a service that construction returned, every request that any
    method gives to the transport, whatever the caller passed, has the key
    [version] in its query, and the value under it is the default query's
    value, the one the constructor stored: no caller key replaces it. *)
Theorem C3_version_on_every_request
    (BaseService_call : value -> result obj) (options : value)
    (this : Service) (e : endpoint) (params callback : value)
    (d : Dispatch) (req : OutboundRequest) :
  ConversationV1 BaseService_call options = Ok this ->
  dispatch transport decode e this params callback = Ok d ->
  In req (sent d) ->
  has_key (r_query req) "version" = true
  /\ get (r_query req) "version" = get (default_qs (_options this)) "version"
  /\ get (r_query req) "version" = get (stored options) "version_date".
Proof.
  intros Hnew Hd Hreq.
  apply ConversationV1_ok in Hnew. destruct Hnew as (merged & q & _ & _ & _ & _ & ->).
  unfold dispatch in Hd. rewrite call_normalise in Hd.
  destruct (@requestFactory_sent _ _ _ _ _ _ Hd Hreq) as (resolved & _ & _ & _ & _ & _ & ->).
  simpl. rewrite has_key_assign, get_assign, has_key_set, get_set, String.eqb_refl.
  auto.
Qed.

(** C4.  [message] with [{workspace_id: "ws1", input: {text: "hi"}}] gives
    the transport exactly one request: POST, the base URL followed by
    [/v1/workspaces/ws1/message], the default query as the query (for a
    constructed service it holds [version], with the constructor's value),
    and the body [{input: {text: "hi"}}]; [workspace_id] is not in the
    body. *)
Theorem C4_message_scenario (this : Service) (callback : value) :
  exists req,
    dispatch transport decode E_message this
             (VObj [("workspace_id", VStr "ws1");
                    ("input", VObj [("text", VStr "hi")])]) callback
    = Ok {| notified := callback;
            completion := complete decode true (transport req);
            sent := [req] |}
    /\ r_method req = POST
    /\ r_url req
       = (to_string (get (settings (_options this)) "url") ++ "/v1/workspaces/ws1/message")%string
    /\ r_body req = Some [("input", VObj [("text", VStr "hi")])]
    /\ has_key (mapping (r_body req)) "workspace_id" = false
    /\ r_query req = assign [] (default_qs (_options this))
    /\ (forall (BaseService_call : value -> result obj) (options : value),
           ConversationV1 BaseService_call options = Ok this ->
           has_key (r_query req) "version" = true
           /\ get (r_query req) "version" = get (stored options) "version_date").
Proof.
  eexists. split; [reflexivity|]. simpl. repeat split.
  - apply ConversationV1_ok in H. destruct H as (merged & q & _ & _ & _ & _ & ->).
    simpl. now rewrite has_key_assign, has_key_set, String.eqb_refl.
  - apply ConversationV1_ok in H. destruct H as (merged & q & _ & _ & _ & _ & ->).
    simpl. now rewrite get_assign, has_key_set, get_set, String.eqb_refl.
Qed.

End VersionProperties.

(** ** Path resolution *)

Lemma has_char_app (c : ascii) (a b : string) :
  has_char c (a ++ b)%string = has_char c a || has_char c b.
Proof.
  induction a as [|c' a IH]; simpl; [reflexivity|].
  now rewrite IH, orb_assoc.
Qed.

Lemma has_token_needs_close (s : string) :
  has_char "}" s = false -> has_token s = false.
Proof.
  induction s as [|c s IH]; simpl; [reflexivity|].
  intros H. apply orb_false_iff in H. destruct H as [_ H].
  rewrite H, (IH H). now rewrite andb_false_r.
Qed.

Lemma has_token_app_clean (a b : string) :
  has_char "{" a = false -> has_token (a ++ b)%string = has_token b.
Proof.
  induction a as [|c a IH]; simpl; [reflexivity|].
  intros H. apply orb_false_iff in H. destruct H as [Hc Ha].
  now rewrite Hc, (IH Ha).
Qed.

Lemma encode_byte_clean (c : ascii) :
  has_char "{" (encode_byte c) = false /\ has_char "}" (encode_byte c) = false.
Proof.
  destruct c as [[] [] [] [] [] [] [] []]; split; reflexivity.
Qed.

Lemma encodeURIComponent_clean (s : string) :
  has_char "{" (encodeURIComponent s) = false
  /\ has_char "}" (encodeURIComponent s) = false.
Proof.
  induction s as [|c s [IHo IHc]]; simpl; [split; reflexivity|].
  rewrite !has_char_app, IHo, IHc.
  destruct (encode_byte_clean c) as [-> ->]. split; reflexivity.
Qed.

(** No [{...}] token survives a resolution, whatever the scan state. *)
Lemma resolve_no_token (values : obj) (tpl : string) :
  forall (cur : option string) (u : string),
    resolve tpl values cur = Some u ->
    match cur with
    | None => True
    | Some name => has_char "}" name = false
    end ->
    has_token u = false.
Proof.
  induction tpl as [|c rest IH]; intros cur u; simpl.
  - destruct cur as [name|]; intros H; inversion H; subst; clear H; simpl.
    + intros Hname. rewrite Hname. simpl. now apply has_token_needs_close.
    + reflexivity.
  - destruct cur as [name|].
    + destruct (c =? "}")%char eqn:Hc.
      * destruct (is_undefined (get values name)); [discriminate|].
        destruct (resolve rest values None) as [u'|] eqn:Hrest; [|discriminate].
        simpl. intros H _. inversion H; subst; clear H.
        rewrite has_token_app_clean; [|apply encodeURIComponent_clean].
        now apply (IH None).
      * intros H Hname. apply (IH _ _ H). simpl.
        rewrite has_char_app, Hname. simpl. now rewrite Hc.
    + destruct (c =? "{")%char eqn:Hc.
      * intros H _. now apply (IH _ _ H).
      * destruct (resolve rest values None) as [u'|] eqn:Hrest; [|discriminate].
        simpl. intros H _. inversion H; subst; clear H. simpl.
        rewrite Hc. simpl. now apply (IH None).
Qed.

(** Resolution succeeds once every placeholder has a defined value. *)
Lemma resolve_total (values : obj) (tpl : string) :
  forall cur : option string,
    (forall n, In n (scan_placeholders tpl cur) -> get values n <> VUndefined) ->
    exists u, resolve tpl values cur = Some u.
Proof.
  induction tpl as [|c rest IH]; intros cur H; simpl.
  - destruct cur; eexists; reflexivity.
  - simpl in H. destruct cur as [name|].
    + destruct (c =? "}")%char.
      * assert (Hdef : get values name <> VUndefined) by (apply H; now left).
        apply is_undefined_false in Hdef. rewrite Hdef.
        destruct (IH None) as [u Hu]; [intros n Hn; apply H; now right|].
        rewrite Hu. eexists; reflexivity.
      * now apply IH.
    + destruct (c =? "{")%char.
      * now apply IH.
      * destruct (IH None H) as [u Hu]. rewrite Hu. eexists; reflexivity.
Qed.

(** Text without an opening brace is copied. *)
Lemma resolve_literal (values : obj) (pre s : string) :
  has_char "{" pre = false ->
  resolve (pre ++ s) values None = option_map (append pre) (resolve s values None).
Proof.
  induction pre as [|c pre IH]; simpl.
  - intros _. now destruct (resolve s values None).
  - intros H. apply orb_false_iff in H. destruct H as [Hc Hpre].
    rewrite Hc, (IH Hpre). now destruct (resolve s values None).
Qed.

(** Inside a brace, the name is read up to the closing brace. *)
Lemma resolve_name (values : obj) (name s : string) :
  has_char "}" name = false ->
  forall acc, resolve (name ++ s) values (Some acc)
              = resolve s values (Some (acc ++ name)%string).
Proof.
  induction name as [|c name IH]; simpl; intros H acc.
  - f_equal. f_equal. clear. induction acc as [|a acc IHa]; simpl; congruence.
  - apply orb_false_iff in H. destruct H as [Hc Hname].
    rewrite Hc, (IH Hname). f_equal. f_equal.
    clear. induction acc as [|a acc IHa]; simpl; congruence.
Qed.

(** A placeholder becomes the percent-encoded string form of its value. *)
Lemma parsePath_placeholder (values : obj) (pre name rest : string) :
  has_char "{" pre = false ->
  has_char "}" name = false ->
  parsePath (pre ++ String "{" (name ++ String "}" rest)) values
  = if is_undefined (get values name) then None
    else option_map
           (append (pre ++ encodeURIComponent (to_string (get values name))))
           (parsePath rest values).
Proof.
  intros Hpre Hname. unfold parsePath.
  rewrite (@resolve_literal values pre _ Hpre). simpl.
  rewrite (@resolve_name values name _ Hname). simpl.
  destruct (is_undefined (get values name)); [reflexivity|].
  destruct (resolve rest values None); simpl; [|reflexivity].
  f_equal. clear.
  induction pre as [|c pre IH]; simpl; congruence.
Qed.

Lemma pick_own (v : value) (allowed : list string) :
  pick v allowed = pick (VObj (own v)) allowed.
Proof.
  unfold own. destruct (props_of v) as [o|] eqn:Hv.
  - unfold pick. now rewrite Hv.
  - now rewrite pick_empty, pick_no_props.
Qed.

Lemma build_own (d : Declaration) (this : Service) (v : value) :
  build d this v = build d this (VObj (own v)).
Proof.
  unfold build.
  assert (H : forall l, option_map (pick v) l = option_map (pick (VObj (own v))) l).
  { intros [l|]; simpl; [|reflexivity]. now rewrite pick_own. }
  now rewrite !H.
Qed.

Lemma placeholders_covered_all (e : endpoint) :
  placeholders_covered (declaration e) = true.
Proof. destruct e; reflexivity. Qed.

Section PathProperties.

Variable transport : OutboundRequest -> TransportReply.
Variable decode : string -> option value.

(** A method's dispatch never stops on an unresolved placeholder. *)
Lemma dispatch_returns (e : endpoint) (this : Service) (params callback : value) :
  exists d, dispatch transport decode e this params callback = Ok d.
Proof.
  unfold dispatch. rewrite call_normalise.
  set (v := fst (normalise e params callback)).
  set (cb := snd (normalise e params callback)).
  rewrite build_own. unfold requestFactory.
  change (requiredParams (build (declaration e) this (VObj (own v))))
    with (d_required (declaration e)).
  rewrite getMissingParams_build.
  destruct (find _ _) as [g|] eqn:Hfind; [eexists; reflexivity|].
  destruct (@resolve_total (mapping (path (options (build (declaration e) this (VObj (own v))))))
              (d_url (declaration e)) None) as [u Hu].
  - intros n Hn. simpl. rewrite get_partition.
    pose proof (placeholders_covered_all e) as Hcov.
    unfold placeholders_covered in Hcov. rewrite forallb_forall in Hcov.
    specialize (Hcov n Hn). apply andb_true_iff in Hcov. destruct Hcov as [Hreq Hpath].
    rewrite Hpath. apply mem_In in Hreq.
    apply find_none with (x := n) in Hfind; [|exact Hreq].
    apply orb_false_iff in Hfind. destruct Hfind as [Hdef _].
    now apply is_undefined_false.
  - unfold parsePath. simpl in *. rewrite Hu. eexists; reflexivity.
Qed.

(** C5.  [deleteExample] with [{workspace_id: "ws1", intent: "greet",
    text: "hi there"}] gives the transport one DELETE request whose URL is
    the base URL followed by
    [/v1/workspaces/ws1/intents/greet/examples/hi%20there].  In general a
    placeholder is replaced by the percent-encoded string form of its value,
    a resolved path holds no [{...}] token, resolution succeeds once every
    placeholder has a defined value, and for every method the dispatch
    returns and the path of any request it sent holds no token. *)
Theorem C5_path_resolution :
  (forall (this : Service) (callback : value),
      exists req,
        dispatch transport decode E_deleteExample this
                 (VObj [("workspace_id", VStr "ws1"); ("intent", VStr "greet");
                        ("text", VStr "hi there")]) callback
        = Ok {| notified := callback;
                completion := complete decode true (transport req);
                sent := [req] |}
        /\ r_method req = DELETE
        /\ r_url req
           = (to_string (get (settings (_options this)) "url")
              ++ "/v1/workspaces/ws1/intents/greet/examples/hi%20there")%string)
  /\ (forall (values : obj) (pre name rest : string),
         has_char "{" pre = false ->
         has_char "}" name = false ->
         parsePath (pre ++ String "{" (name ++ String "}" rest)) values
         = if is_undefined (get values name) then None
           else option_map
                  (append (pre ++ encodeURIComponent (to_string (get values name))))
                  (parsePath rest values))
  /\ (forall (tpl : string) (values : obj) (u : string),
         parsePath tpl values = Some u -> has_token u = false)
  /\ (forall (tpl : string) (values : obj),
         (forall n, In n (placeholders tpl) -> get values n <> VUndefined) ->
         exists u, parsePath tpl values = Some u)
  /\ (forall (e : endpoint) (this : Service) (params callback : value),
         exists d,
           dispatch transport decode e this params callback = Ok d
           /\ forall req, In req (sent d) ->
                exists resolved,
                  r_url req
                  = (to_string (get (settings (_options this)) "url") ++ resolved)%string
                  /\ has_token resolved = false).
Proof.
  split; [|split; [|split; [|split]]].
  - intros this callback. eexists. split; [reflexivity|]. split; reflexivity.
  - apply parsePath_placeholder.
  - intros tpl values u H. now apply (@resolve_no_token values tpl None u H).
  - intros tpl values H. now apply resolve_total.
  - intros e this params callback.
    destruct (dispatch_returns e this params callback) as [d Hd].
    exists d. split; [assumption|]. intros req Hreq.
    unfold dispatch in Hd. rewrite call_normalise in Hd.
    destruct (@requestFactory_sent _ _ _ _ _ _ Hd Hreq) as (resolved & Hres & _ & _ & _ & _ & ->).
    exists resolved. split; [reflexivity|].
    now apply (@resolve_no_token _ _ None resolved Hres).
Qed.

End PathProperties.

(** ** Calling conventions *)

(** C7.  For every method, a [null] or absent first argument is an empty
    mapping: the method hands the request factory what it hands it for
    [{}], the body, query and path mappings it builds are empty, and the
    dispatch then completes with [MissingRequiredParameter] on the first
    required field when the method has required fields, and sends its
    request when it has none. *)
Theorem C7_null_parameters_are_empty
    (e : endpoint) (this : Service) (params callback : value) :
  params = VNull \/ params = VUndefined ->
  (forall (R : Type) (rf : Parameters -> value -> R),
      call rf e this params callback = call rf e this (VObj []) callback)
  /\ parameters_of e this params callback = build (declaration e) this (VObj [])
  /\ callback_of e this params callback = callback
  /\ (let o := options (parameters_of e this params callback) in
      mapping (body o) = [] /\ mapping (qs o) = [] /\ mapping (path o) = [])
  /\ (forall (transport : OutboundRequest -> TransportReply)
             (decode : string -> option value),
         match names (d_required (declaration e)) with
         | r :: _ =>
             dispatch transport decode e this params callback
             = Ok {| notified := callback;
                     completion := Failure (MissingRequiredParameter r);
                     sent := [] |}
         | [] =>
             exists req,
               dispatch transport decode e this params callback
               = Ok {| notified := callback;
                       completion := complete decode (d_json (declaration e))
                                              (transport req);
                       sent := [req] |}
         end).
Proof.
  intros [-> | ->]; (split; [|split; [|split; [|split]]]);
    try (destruct e; repeat split; reflexivity);
    intros transport decode; destruct e; simpl;
    try reflexivity; eexists; reflexivity.
Qed.

Lemma required_within_allowed_all (e : endpoint) :
  required_within_allowed (declaration e) = true.
Proof. destruct e; reflexivity. Qed.

(** C8.  For every method of the facade, each required name is an allowed
    body name, an allowed query name, or a placeholder of the URL template.
    The names the method picks for the path are those placeholders, and the
    table entry is what the method passes on. *)
Theorem C8_required_subset_of_allowed :
  (forall (e : endpoint) (r : string),
      In r (names (d_required (declaration e))) ->
      In r (names (d_body (declaration e)) ++ names (d_qs (declaration e))
            ++ placeholders (d_url (declaration e))))
  /\ (forall e : endpoint,
         names (d_path (declaration e)) = placeholders (d_url (declaration e)))
  /\ (forall (e : endpoint) (this : Service) (params callback : value),
         requiredParams (parameters_of e this params callback)
         = d_required (declaration e)
         /\ url (options (parameters_of e this params callback))
            = d_url (declaration e)).
Proof.
  split; [|split].
  - intros e r Hr.
    pose proof (required_within_allowed_all e) as H.
    unfold required_within_allowed in H. rewrite forallb_forall in H.
    apply mem_In. exact (H r Hr).
  - intros e. destruct e; reflexivity.
  - intros e this params callback. unfold parameters_of.
    rewrite call_normalise. split; reflexivity.
Qed.

(** C10.  [listWorkspaces], given a function and no callback after it,
    takes the function for the callback and builds an empty query; every
    other method, given a function first, keeps its callback argument and
    filters the function's own properties as the parameter mapping. *)
Theorem C10_callback_first_only_in_listWorkspaces :
  (forall (R : Type) (rf : Parameters -> value -> R) (this : Service)
          (text : string) (props : obj) (callback : value),
      truthy callback = false ->
      listWorkspaces rf this (VFun text props) callback
      = rf (build (declaration E_listWorkspaces) this VNull) (VFun text props)
      /\ qs (options (build (declaration E_listWorkspaces) this VNull)) = Some [])
  /\ (forall e : endpoint,
         e <> E_listWorkspaces ->
         forall (R : Type) (rf : Parameters -> value -> R) (this : Service)
                (text : string) (props : obj) (callback : value),
           call rf e this (VFun text props) callback
           = rf (build (declaration e) this (VFun text props)) callback
           /\ build (declaration e) this (VFun text props)
              = build (declaration e) this (VObj props))
  /\ (forall (this : Service) (text : string) (callback : value),
         body (options (parameters_of E_createWorkspace this
                          (VFun text [("name", VStr "f")]) callback))
         = Some [("name", VStr "f")]
         /\ qs (options (parameters_of E_listWorkspaces this
                           (VFun text [("sort", VStr "f")]) VUndefined))
            = Some []).
Proof.
  split; [|split].
  - intros R rf this text props callback Hcb.
    unfold listWorkspaces. simpl. rewrite Hcb. simpl. split; reflexivity.
  - intros e He R rf this text props callback.
    rewrite call_normalise. split.
    + destruct e; try reflexivity. now elim He.
    + rewrite build_own. reflexivity.
  - intros this text callback. split; reflexivity.
Qed.

(** ** The theorems at concrete inputs *)

Lemma C1_witness :
  exists g,
    dispatch_declaration sample_transport sample_decode
      (declaration E_deleteExample) sample_service
      [("workspace_id", VStr "ws1"); ("intent", VStr "greet")] VUndefined
    = Ok {| notified := VUndefined;
            completion := Failure (MissingRequiredParameter g);
            sent := [] |}
    /\ g = "text".
Proof.
  destruct (proj1 (C1_missing_required_parameter sample_transport sample_decode)
              (declaration E_deleteExample) sample_service
              [("workspace_id", VStr "ws1"); ("intent", VStr "greet")]
              VUndefined "text")
    as (g & Hd & _ & _ & Hg).
  - simpl. tauto.
  - reflexivity.
  - exists g. split; [exact Hd|]. apply Hg.
    intros h Hh Hne. simpl in Hh.
    destruct Hh as [<- | [<- | [<- | []]]];
      [split; [discriminate | reflexivity] .. | now elim Hne].
Defined.

Lemma C2_witness :
  dispatch sample_transport sample_decode E_message sample_service
    (VObj [("workspace_id", VStr "ws1")]) VUndefined
  = dispatch sample_transport sample_decode E_message sample_service
      (VObj [("workspace_id", VStr "ws1"); ("injected", VStr "x")]) VUndefined.
Proof.
  apply (proj2 (proj2 (C2_extra_keys_never_leak sample_transport sample_decode))).
  intros k Hk. unfold let_through in Hk. simpl in Hk.
  rewrite !orb_false_r in Hk.
  repeat (apply orb_true_iff in Hk; destruct Hk as [Hk | Hk]);
    apply String.eqb_eq in Hk; subst k; split; reflexivity.
Defined.

Lemma C3_witness :
  has_key (r_query sample_listing) "version" = true
  /\ get (r_query sample_listing) "version"
     = get (default_qs (_options sample_service)) "version"
  /\ get (r_query sample_listing) "version" = get sample_options "version_date".
Proof.
  apply (@C3_version_on_every_request sample_transport sample_decode
           (BaseService_merge []) (VObj sample_options) sample_service E_listWorkspaces
           (VObj [("version", VStr "1999-01-01")]) VUndefined
           {| notified := VUndefined;
              completion := Success (VStr "{}");
              sent := [sample_listing] |}
           sample_listing).
  - reflexivity.
  - reflexivity.
  - left. reflexivity.
Defined.

Lemma C4_witness :
  exists req,
    dispatch sample_transport sample_decode E_message sample_service
      (VObj [("workspace_id", VStr "ws1"); ("input", VObj [("text", VStr "hi")])])
      VUndefined
    = Ok {| notified := VUndefined;
            completion := complete sample_decode true (sample_transport req);
            sent := [req] |}
    /\ get (r_query req) "version" = VStr VERSION_DATE_2017_02_03.
Proof.
  destruct (C4_message_scenario sample_transport sample_decode sample_service VUndefined)
    as (req & Hd & _ & _ & _ & _ & _ & Hv).
  exists req. split; [exact Hd|].
  apply (Hv (BaseService_merge []) (VObj sample_options)). reflexivity.
Defined.

Lemma C5_witness :
  parsePath "/v1/workspaces/{workspace_id}" [("workspace_id", VStr "a b")]
  = Some "/v1/workspaces/a%20b"
  /\ has_token "/v1/workspaces/a%20b" = false.
Proof.
  split; [reflexivity|].
  apply (proj1 (proj2 (proj2 (C5_path_resolution sample_transport sample_decode)))
           "/v1/workspaces/{workspace_id}" [("workspace_id", VStr "a b")]).
  reflexivity.
Defined.

Lemma C6_witness :
  (exists this,
      ConversationV1 (BaseService_merge []) (VObj sample_options) = Ok this
      /\ settings (_options this) = sample_merged)
  /\ ConversationV1 (BaseService_merge []) (VObj [])
     = Throw (Error "Argument error: version_date was not specified, use ConversationV1.VERSION_DATE_2017_02_03").
Proof.
  split.
  - apply (proj2 (@C6_version_date_mandatory (BaseService_merge []) (VObj sample_options)
                    sample_merged eq_refl)) with (q := []).
    + simpl. discriminate.
    + reflexivity.
    + reflexivity.
  - apply (proj1 (@C6_version_date_mandatory (BaseService_merge []) (VObj [])
                    [("qs", VObj []); ("url", VStr URL)] eq_refl)).
    reflexivity.
Defined.

Lemma C7_witness :
  parameters_of E_getIntent sample_service VNull VUndefined
  = build (declaration E_getIntent) sample_service (VObj [])
  /\ dispatch sample_transport sample_decode E_getIntent sample_service VNull VUndefined
     = Ok {| notified := VUndefined;
             completion := Failure (MissingRequiredParameter "workspace_id");
             sent := [] |}.
Proof.
  destruct (@C7_null_parameters_are_empty E_getIntent sample_service VNull VUndefined
              (or_introl eq_refl)) as (_ & Hp & _ & _ & Hd).
  split; [exact Hp | exact (Hd sample_transport sample_decode)].
Defined.

Lemma C8_witness :
  In "text" (names (d_body (declaration E_updateExample))
             ++ names (d_qs (declaration E_updateExample))
             ++ placeholders (d_url (declaration E_updateExample))).
Proof.
  apply (proj1 C8_required_subset_of_allowed E_updateExample "text").
  simpl. tauto.
Defined.

Lemma C9_witness :
  get (default_qs (_options sample_service)) "version"
  = get sample_options "version_date".
Proof.
  apply (proj1 (proj1 C9_version_from_raw_argument
                  (BaseService_merge []) (VObj sample_options) sample_service eq_refl)).
Defined.

Lemma C10_witness :
  message (fun parameters callback => (parameters, callback)) sample_service
          (VFun "function () {}" [("input", VStr "hi")]) VUndefined
  = (build (declaration E_message) sample_service (VObj [("input", VStr "hi")]),
     VUndefined).
Proof.
  destruct (proj1 (proj2 C10_callback_first_only_in_listWorkspaces)
              E_message ltac:(discriminate) _
              (fun parameters callback => (parameters, callback)) sample_service
              "function () {}" [("input", VStr "hi")] VUndefined) as [Hcall Hbuild].
  rewrite <- Hbuild. exact Hcall.
Defined.

(** * Further properties of the facade *)

Lemma has_key_pick_eq (o : obj) (allowed : list string) (k : string) :
  has_key (pick (VObj o) allowed) k = mem k allowed && has_key o k.
Proof.
  unfold pick; simpl. rewrite copy_has_key. simpl. apply orb_false_r.
Qed.

Lemma has_key_partition_eq (o : obj) (l : option (list string)) (k : string) :
  has_key (mapping (option_map (pick (VObj o)) l)) k
  = mem k (names l) && has_key o k.
Proof. destruct l as [l|]; simpl; [apply has_key_pick_eq | reflexivity]. Qed.

Lemma disjoint_spec (l1 l2 : list string) (k : string) :
  disjoint l1 l2 = true -> In k l1 -> In k l2 -> False.
Proof.
  unfold disjoint. rewrite forallb_forall. intros H H1 H2.
  specialize (H k H1). apply mem_In in H2. rewrite H2 in H. discriminate.
Qed.

Lemma partitions_disjoint_all (e : endpoint) :
  partitions_disjoint (declaration e) = true.
Proof. destruct e; reflexivity. Qed.

Lemma required_from_path_or_body_all (e : endpoint) :
  required_from_path_or_body (declaration e) = true.
Proof. destruct e; reflexivity. Qed.

Lemma own_no_props (v : value) : props_of v = None -> own v = [].
Proof. unfold own. now intros ->. Qed.

Lemma keys_set (o : obj) (k : string) (v : value) :
  keys (set o k v) = if has_key o k then keys o else keys o ++ [k].
Proof.
  induction o as [|[k0 v0] o IH]; simpl; [reflexivity|].
  destruct (k0 =? k) eqn:E; simpl; [reflexivity|].
  rewrite IH. now destruct (has_key o k).
Qed.

(** X1.  For every method called with a mapping [P]: in each of the body,
    query and path mappings that the method builds, a name of the matching
    allowed list is a key exactly when it is a key of [P], and carries [P]'s
    value unchanged; any other name is absent.  Nothing allowed is dropped
    and no value is altered. *)
Theorem X1_allowed_parameters_pass_unchanged
    (e : endpoint) (this : Service) (P : obj) (callback : value) (k : string) :
  let o := options (parameters_of e this (VObj P) callback) in
  let d := declaration e in
  (has_key (mapping (body o)) k = mem k (names (d_body d)) && has_key P k
   /\ get (mapping (body o)) k
      = if mem k (names (d_body d)) then get P k else VUndefined)
  /\ (has_key (mapping (qs o)) k = mem k (names (d_qs d)) && has_key P k
      /\ get (mapping (qs o)) k
         = if mem k (names (d_qs d)) then get P k else VUndefined)
  /\ (has_key (mapping (path o)) k = mem k (names (d_path d)) && has_key P k
      /\ get (mapping (path o)) k
         = if mem k (names (d_path d)) then get P k else VUndefined).
Proof.
  unfold parameters_of. rewrite call_mapping. simpl.
  repeat split; first [apply has_key_partition_eq | apply get_partition].
Qed.

(** X2.  For every method, a first argument that is neither a plain object
    nor a function (a boolean, number, string, array, [null] or
    [undefined]) raises nothing and is taken for the empty mapping: the
    request factory receives exactly what it receives for [{}], with the
    same callback. *)
Theorem X2_non_object_parameters_are_empty
    (e : endpoint) (this : Service) (params callback : value) :
  props_of params = None ->
  forall (R : Type) (rf : Parameters -> value -> R),
    call rf e this params callback = call rf e this (VObj []) callback.
Proof.
  intros Hp R rf. rewrite !call_normalise, normalise_mapping. simpl.
  assert (Hfst : own (fst (normalise e params callback)) = []).
  { destruct e; simpl;
      try (unfold or_else; destruct (truthy params);
           [now apply own_no_props | reflexivity]).
    destruct params; try discriminate Hp; reflexivity. }
  assert (Hsnd : snd (normalise e params callback) = callback).
  { destruct e; try reflexivity.
    destruct params; try discriminate Hp; reflexivity. }
  now rewrite build_own, Hfst, Hsnd.
Qed.

(** X3.  Every method asks for a JSON exchange ([json: true]) except
    [listWorkspaces], which leaves the flag out. *)
Theorem X3_json_everywhere_but_listWorkspaces
    (e : endpoint) (this : Service) (params callback : value) :
  json (options (parameters_of e this params callback))
  = match e with E_listWorkspaces => false | _ => true end.
Proof.
  unfold parameters_of. rewrite call_normalise. destruct e; reflexivity.
Qed.

(** X4.  Whatever the arguments, a method that builds a body mapping is a
    POST and a method that builds a query mapping is a GET; a DELETE builds
    neither, and no method is a PUT. *)
Theorem X4_body_on_post_query_on_get
    (e : endpoint) (this : Service) (params callback : value) :
  let o := options (parameters_of e this params callback) in
  (body o <> None -> method o = POST)
  /\ (qs o <> None -> method o = GET)
  /\ (method o = DELETE -> body o = None /\ qs o = None)
  /\ method o <> PUT.
Proof.
  unfold parameters_of. rewrite call_normalise.
  destruct e; simpl; repeat split; intros; congruence.
Qed.

(** X5.  No call parameter is sent in two positions: for every method and
    every first argument, a key of the body mapping is a key of neither the
    query nor the path mapping, and a key of the query mapping is not a key
    of the path mapping. *)
Theorem X5_one_position_per_parameter
    (e : endpoint) (this : Service) (params callback : value) (k : string) :
  let o := options (parameters_of e this params callback) in
  (has_key (mapping (body o)) k = true ->
   has_key (mapping (qs o)) k = false /\ has_key (mapping (path o)) k = false)
  /\ (has_key (mapping (qs o)) k = true ->
      has_key (mapping (path o)) k = false).
Proof.
  unfold parameters_of. rewrite call_normalise. simpl.
  pose proof (partitions_disjoint_all e) as Hd.
  unfold partitions_disjoint in Hd.
  apply andb_true_iff in Hd. destruct Hd as [Hd Hqp].
  apply andb_true_iff in Hd. destruct Hd as [Hbq Hbp].
  split.
  - intros Hb. apply has_key_partition in Hb.
    split; apply not_true_is_false; intros H; apply has_key_partition in H.
    + exact (@disjoint_spec _ _ k Hbq Hb H).
    + exact (@disjoint_spec _ _ k Hbp Hb H).
  - intros Hq. apply has_key_partition in Hq.
    apply not_true_is_false; intros H; apply has_key_partition in H.
    exact (@disjoint_spec _ _ k Hqp Hq H).
Qed.

(** X6.  Every method requires each path parameter of its URL: a
    placeholder of the URL template it passes on is one of the required
    names it passes on. *)
Theorem X6_path_parameters_are_required
    (e : endpoint) (this : Service) (params callback : value) (n : string) :
  let p := parameters_of e this params callback in
  In n (placeholders (url (options p))) -> In n (names (requiredParams p)).
Proof.
  unfold parameters_of. rewrite call_normalise. simpl. intros Hn.
  pose proof (placeholders_covered_all e) as Hcov.
  unfold placeholders_covered in Hcov. rewrite forallb_forall in Hcov.
  specialize (Hcov n Hn). apply andb_true_iff in Hcov.
  now apply mem_In.
Qed.

(** X7.  Query parameters are always optional: a required name of a method
    is a placeholder of its URL or one of its body names, never one of its
    query names. *)
Theorem X7_query_parameters_are_optional
    (e : endpoint) (this : Service) (params callback : value) (r : string) :
  let p := parameters_of e this params callback in
  In r (names (requiredParams p)) ->
  (In r (placeholders (url (options p))) \/ In r (names (d_body (declaration e))))
  /\ ~ In r (names (d_qs (declaration e))).
Proof.
  unfold parameters_of. rewrite call_normalise. simpl. intros Hr.
  pose proof (required_from_path_or_body_all e) as Hreq.
  unfold required_from_path_or_body in Hreq. rewrite forallb_forall in Hreq.
  specialize (Hreq r Hr). apply orb_true_iff in Hreq.
  pose proof (partitions_disjoint_all e) as Hd.
  unfold partitions_disjoint in Hd.
  apply andb_true_iff in Hd. destruct Hd as [Hd Hqp].
  apply andb_true_iff in Hd. destruct Hd as [Hbq _].
  destruct Hreq as [Hpath | Hbody]; apply mem_In in Hpath || apply mem_In in Hbody.
  - split; [now left|]. intros Hq.
    pose proof (placeholders_covered_all e) as Hcov.
    unfold placeholders_covered in Hcov. rewrite forallb_forall in Hcov.
    specialize (Hcov r Hpath). apply andb_true_iff in Hcov. destruct Hcov as [_ Hp].
    apply mem_In in Hp. exact (@disjoint_spec _ _ r Hqp Hq Hp).
  - split; [now right|]. intros Hq.
    exact (@disjoint_spec _ _ r Hbq Hbody Hq).
Qed.

(** X8.  A successful construction changes nothing but the [version] entry
    of the default query: the merged options are kept as the settings, every
    other entry of the merged [qs] keeps its presence and its value,
    [version] is a key afterwards, and the keys keep their order, [version]
    being appended only when it was not there. *)
Theorem X8_construction_touches_only_version
    (BaseService_call : value -> result obj)
    (options : value) (merged : obj) (this : Service) :
  BaseService_call options = Ok merged ->
  ConversationV1 BaseService_call options = Ok this ->
  exists q,
    holder (get merged "qs") = Some q
    /\ settings (_options this) = merged
    /\ (forall k, k <> "version" ->
          has_key (default_qs (_options this)) k = has_key q k
          /\ get (default_qs (_options this)) k = get q k)
    /\ has_key (default_qs (_options this)) "version" = true
    /\ keys (default_qs (_options this))
       = if has_key q "version" then keys q else keys q ++ ["version"].
Proof.
  intros Hbase Hnew. apply ConversationV1_ok in Hnew.
  destruct Hnew as (merged' & q & Hbase' & _ & _ & Hq & ->).
  rewrite Hbase in Hbase'. inversion Hbase'; subst merged'. simpl.
  exists q. split; [exact Hq|]. split; [reflexivity|]. split; [|split].
  - intros k Hk. apply String.eqb_neq in Hk. rewrite String.eqb_sym in Hk.
    now rewrite has_key_set, get_set, Hk.
  - now rewrite has_key_set, String.eqb_refl.
  - apply keys_set.
Qed.

(** X9.  When construction throws, either the base service threw that very
    exception; or the merged options hold no [version_date] and the
    exception is the argument error; or they hold one and the exception is
    a [TypeError], the constructor argument being [undefined] or [null] or
    the merged [qs] unable to take a property.  Conversely, with a
    [version_date] in the merged options, such an argument or such a [qs]
    always ends in a [TypeError]: a [version_date] that only the merged
    options supply does not make a missing argument acceptable. *)
Theorem X9_construction_failures
    (BaseService_call : value -> result obj) (options : value) :
  (forall ex : exn,
      ConversationV1 BaseService_call options = Throw ex ->
      BaseService_call options = Throw ex
      \/ exists merged,
           BaseService_call options = Ok merged
           /\ ((get merged "version_date" = VUndefined
                /\ ex = Error "Argument error: version_date was not specified, use ConversationV1.VERSION_DATE_2017_02_03")
               \/ (get merged "version_date" <> VUndefined
                   /\ (nullish options = true \/ holder (get merged "qs") = None)
                   /\ exists message, ex = TypeError message)))
  /\ (forall merged : obj,
         BaseService_call options = Ok merged ->
         get merged "version_date" <> VUndefined ->
         nullish options = true \/ holder (get merged "qs") = None ->
         exists message,
           ConversationV1 BaseService_call options = Throw (TypeError message)).
Proof.
  split.
  - intros ex. unfold ConversationV1, read_property.
    destruct (BaseService_call options) as [merged|e0].
    + rewrite typeof_undefined.
      destruct (is_undefined (get merged "version_date")) eqn:Hv.
      * intros H. inversion H. right. exists merged. split; [reflexivity|].
        left. split; [now apply is_undefined_true | reflexivity].
      * apply is_undefined_false in Hv.
        destruct (nullish (get merged "qs")) eqn:Hq.
        { intros H. inversion H. right. exists merged. split; [reflexivity|].
          right. split; [exact Hv|]. split; [|eexists; reflexivity].
          right. destruct (get merged "qs"); simpl in *; congruence. }
        destruct (nullish options) eqn:Hn.
        { intros H. inversion H. right. exists merged. split; [reflexivity|].
          right. split; [exact Hv|]. split; [now left | eexists; reflexivity]. }
        destruct (holder (get merged "qs")) as [q|] eqn:Hh; [discriminate|].
        intros H. inversion H. right. exists merged. split; [reflexivity|].
        right. split; [exact Hv|]. split; [now right | eexists; reflexivity].
    + intros H. inversion H. now left.
  - intros merged. apply ConversationV1_type_error.
Qed.

(** X10.  [listWorkspaces] swaps its arguments in no other case: when the
    first argument is not a function, or when a truthy callback follows it,
    both arguments are used as given, so a function followed by a callback
    is filtered as the parameter mapping. *)
Theorem X10_listWorkspaces_keeps_arguments
    (R : Type) (rf : Parameters -> value -> R) (this : Service)
    (params callback : value) :
  (typeof params =? "function") = false \/ truthy callback = true ->
  listWorkspaces rf this params callback
  = rf (build (declaration E_listWorkspaces) this params) callback.
Proof.
  intros H. unfold listWorkspaces.
  assert (Hc : (typeof params =? "function") && negb (truthy callback) = false).
  { destruct H as [-> | ->]; [reflexivity | apply andb_false_r]. }
  rewrite Hc. reflexivity.
Qed.

(** X11.  For every method called with a mapping [P] that defines each
    required name, the path mapping the method builds defines every
    placeholder of its URL, with [P]'s value. *)
Theorem X11_required_parameters_fill_the_path
    (e : endpoint) (this : Service) (P : obj) (callback : value) :
  let p := parameters_of e this (VObj P) callback in
  (forall r, In r (names (requiredParams p)) -> get P r <> VUndefined) ->
  forall n, In n (placeholders (url (options p))) ->
            get (mapping (path (options p))) n = get P n
            /\ get P n <> VUndefined.
Proof.
  unfold parameters_of. rewrite call_mapping. simpl. intros Hreq n Hn.
  pose proof (placeholders_covered_all e) as Hcov.
  unfold placeholders_covered in Hcov. rewrite forallb_forall in Hcov.
  specialize (Hcov n Hn). apply andb_true_iff in Hcov. destruct Hcov as [Hr Hp].
  rewrite get_partition, Hp. split; [reflexivity|].
  apply Hreq. now apply mem_In.
Qed.

(** X12.  No two methods address the same route: two methods that pass on
    the same verb and the same URL template are the same method. *)
Theorem X12_routes_are_distinct
    (e e' : endpoint) (this this' : Service) (params callback params' callback' : value) :
  method (options (parameters_of e this params callback))
  = method (options (parameters_of e' this' params' callback')) ->
  url (options (parameters_of e this params callback))
  = url (options (parameters_of e' this' params' callback')) ->
  e = e'.
Proof.
  unfold parameters_of. rewrite !call_normalise. simpl.
  destruct e, e'; simpl; intros Hm Hu; try reflexivity; discriminate.
Qed.

(** X13.  Every method of a constructed service passes the service's
    options on as the default options, so the [version] the constructor
    stored, the raw argument's [version_date], reaches the request factory
    on every call, whatever the arguments. *)
Theorem X13_constructed_version_reaches_every_call
    (BaseService_call : value -> result obj) (options : value)
    (this : Service) (e : endpoint) (params callback : value) :
  ConversationV1 BaseService_call options = Ok this ->
  defaultOptions (parameters_of e this params callback) = _options this
  /\ get (default_qs (defaultOptions (parameters_of e this params callback))) "version"
     = get (stored options) "version_date".
Proof.
  intros Hnew. unfold parameters_of. rewrite call_normalise. simpl.
  split; [reflexivity|].
  apply ConversationV1_ok in Hnew. destruct Hnew as (merged & q & _ & _ & _ & _ & ->).
  simpl. now rewrite get_set, String.eqb_refl.
Qed.

(** ** The further properties at concrete inputs *)

Lemma X2_witness :
  message (fun parameters callback => (parameters, callback)) sample_service
          (VArr [VStr "ws1"]) VUndefined
  = message (fun parameters callback => (parameters, callback)) sample_service
            (VObj []) VUndefined.
Proof.
  apply (@X2_non_object_parameters_are_empty E_message sample_service
           (VArr [VStr "ws1"]) VUndefined eq_refl).
Defined.

Lemma X4_witness :
  method (options (parameters_of E_createExample sample_service
                     (VObj [("text", VStr "hi")]) VUndefined)) = POST.
Proof.
  apply (proj1 (X4_body_on_post_query_on_get E_createExample sample_service
                  (VObj [("text", VStr "hi")]) VUndefined)).
  simpl. discriminate.
Defined.

Lemma X5_witness :
  has_key (mapping (qs (options (parameters_of E_updateIntent sample_service
                                   (VObj [("intent", VStr "greet")]) VUndefined))))
          "intent" = false
  /\ has_key (mapping (path (options (parameters_of E_updateIntent sample_service
                                        (VObj [("intent", VStr "greet")]) VUndefined))))
             "intent" = false.
Proof.
  apply (proj1 (X5_one_position_per_parameter E_updateIntent sample_service
                  (VObj [("intent", VStr "greet")]) VUndefined "intent")).
  reflexivity.
Defined.

Lemma X6_witness :
  In "old_text"
     (names (requiredParams (parameters_of E_updateCounterExample sample_service
                               VNull VUndefined))).
Proof.
  apply (@X6_path_parameters_are_required E_updateCounterExample sample_service
           VNull VUndefined "old_text").
  simpl. tauto.
Defined.

Lemma X7_witness :
  (In "intent" (placeholders (url (options (parameters_of E_createIntent sample_service
                                              VNull VUndefined))))
   \/ In "intent" (names (d_body (declaration E_createIntent))))
  /\ ~ In "intent" (names (d_qs (declaration E_createIntent))).
Proof.
  apply (@X7_query_parameters_are_optional E_createIntent sample_service
           VNull VUndefined "intent").
  simpl. tauto.
Defined.

Lemma X8_witness :
  exists q,
    holder (get sample_merged "qs") = Some q
    /\ settings (_options sample_service) = sample_merged
    /\ (forall k, k <> "version" ->
          has_key (default_qs (_options sample_service)) k = has_key q k
          /\ get (default_qs (_options sample_service)) k = get q k)
    /\ has_key (default_qs (_options sample_service)) "version" = true
    /\ keys (default_qs (_options sample_service))
       = if has_key q "version" then keys q else keys q ++ ["version"].
Proof.
  apply (@X8_construction_touches_only_version (BaseService_merge [])
           (VObj sample_options) sample_merged sample_service); reflexivity.
Defined.

Lemma X9_witness :
  exists message,
    ConversationV1 (BaseService_merge sample_collaborator) VNull
    = Throw (TypeError message).
Proof.
  apply (proj2 (X9_construction_failures (BaseService_merge sample_collaborator) VNull)
           [("qs", VObj []); ("url", VStr URL);
            ("version_date", VStr VERSION_DATE_2017_02_03)]).
  - reflexivity.
  - simpl. discriminate.
  - left. reflexivity.
Defined.

Lemma X10_witness :
  listWorkspaces (fun parameters callback => (parameters, callback)) sample_service
                 (VFun "function () {}" [("sort", VStr "asc")])
                 (VFun "function (err, res) {}" [])
  = (build (declaration E_listWorkspaces) sample_service
           (VFun "function () {}" [("sort", VStr "asc")]),
     VFun "function (err, res) {}" []).
Proof.
  apply (@X10_listWorkspaces_keeps_arguments _
           (fun parameters callback => (parameters, callback)) sample_service
           (VFun "function () {}" [("sort", VStr "asc")])
           (VFun "function (err, res) {}" [])).
  right. reflexivity.
Defined.

Lemma X11_witness :
  get (mapping (path (options (parameters_of E_getIntent sample_service
                                 (VObj [("workspace_id", VStr "ws1");
                                        ("intent", VStr "greet")]) VUndefined))))
      "intent"
  = VStr "greet".
Proof.
  apply (@X11_required_parameters_fill_the_path E_getIntent sample_service
           [("workspace_id", VStr "ws1"); ("intent", VStr "greet")] VUndefined).
  - simpl. intros r [<- | [<- | []]]; discriminate.
  - simpl. tauto.
Defined.

Lemma X12_witness : E_getExample = E_getExample.
Proof.
  apply (@X12_routes_are_distinct E_getExample E_getExample
           sample_service sample_service VNull VUndefined
           (VObj [("text", VStr "hi")]) VNull); reflexivity.
Defined.

Lemma X13_witness :
  get (default_qs (defaultOptions (parameters_of E_deleteIntent sample_service
                                     VNull VUndefined))) "version"
  = get sample_options "version_date".
Proof.
  apply (proj2 (@X13_constructed_version_reaches_every_call (BaseService_merge [])
                  (VObj sample_options) sample_service E_deleteIntent VNull VUndefined
                  eq_refl)).
Defined.
